(** * BatchMatMul: shape inference and gradient synthesis

    A shallow embedding of [caffe2/operators/batch_matmul_op.cc]: the
    tensor-inference function registered in the [BatchMatMul] operator
    schema and the gradient maker [GetBatchMatMulGradient].

    Conventions of the embedding.
    - C++ integers are [Z] with the conversions written out: [to_int]
      for a value stored in an [int] (32 bits, two's complement),
      [to_size_t] for a [size_t] (64 bits, unsigned) and [to_TIndex] for
      a [TIndex] ([int64_t]).
    - [std::vector] and protobuf repeated fields are lists; an access
      outside the range is undefined behaviour in the source and is the
      error [OutOfRange] here, kept apart from the failures that the source
      raises itself.
    - [CAFFE_ENFORCE*] failures are the error [EnforceNotMet], carrying the
      message given at the call site (the empty string when there is none).
    - [GetSingleArgument<int>] hands an argument out as an [int]; a stored
      value outside the range of [int] is the error [NotAnInt] here, kept
      apart in the same way. *)

From Stdlib Require Import ZArith String List Lia Bool.
From stdpp Require Import base list strings.

Local Open Scope string_scope.
Local Open Scope list_scope.
Local Open Scope Z_scope.

(** ** Errors *)

Inductive error : Type :=
| EnforceNotMet (msg : string)
| OutOfRange
| NotAnInt.

Inductive result (A : Type) : Type :=
| Ok (a : A)
| Err (e : error).

Arguments Ok {A} a.
Arguments Err {A} e.

Definition bind {A B : Type} (r : result A) (k : A -> result B) : result B :=
  match r with
  | Ok a => k a
  | Err e => Err e
  end.

Declare Scope result_scope.
Delimit Scope result_scope with result.
Notation "x <- r ;; k" := (bind r (fun x => k))
  (at level 100, r at next level, right associativity) : result_scope.
Local Open Scope result_scope.

Definition CAFFE_ENFORCE (cond : bool) (msg : string) : result unit :=
  if cond then Ok tt else Err (EnforceNotMet msg).

Definition is_ok {A : Type} (r : result A) : bool :=
  match r with Ok _ => true | Err _ => false end.

(** ** Machine integers *)

Definition wrap_signed (w : Z) (z : Z) : Z :=
  (z + 2 ^ (w - 1)) mod 2 ^ w - 2 ^ (w - 1).

(** Conversion to [int]. *)
Definition to_int (z : Z) : Z := wrap_signed 32 z.

(** Conversion to [TIndex], that is [int64_t]. *)
Definition to_TIndex (z : Z) : Z := wrap_signed 64 z.

(** Conversion to [size_t]. *)
Definition to_size_t (z : Z) : Z := z mod 2 ^ 64.

Definition is_int (z : Z) : Prop := - 2 ^ 31 <= z < 2 ^ 31.
Definition is_TIndex (z : Z) : Prop := - 2 ^ 63 <= z < 2 ^ 63.

Definition is_intb (z : Z) : bool := (- 2 ^ 31 <=? z) && (z <? 2 ^ 31).
Definition is_TIndexb (z : Z) : bool := (- 2 ^ 63 <=? z) && (z <? 2 ^ 63).

Arguments to_int : simpl never.
Arguments to_size_t : simpl never.
Arguments to_TIndex : simpl never.

(** C++ truth value of an integer. *)
Definition truthy (z : Z) : bool := negb (z =? 0).

(** ** Vectors *)

(** [v[i]] for reading. *)
Definition vec_get {A : Type} (v : list A) (i : Z) : result A :=
  if 0 <=? i then
    match v !! Z.to_nat i with
    | Some x => Ok x
    | None => Err OutOfRange
    end
  else Err OutOfRange.

(** [v[i] = x]. *)
Definition vec_set {A : Type} (v : list A) (i : Z) (x : A) : result (list A) :=
  if (0 <=? i) && (i <? Z.of_nat (length v))
  then Ok (<[Z.to_nat i := x]> v)
  else Err OutOfRange.

(** [w.assign(v.begin(), v.end() - 2)]. *)
Definition vec_assign_but_last2 {A : Type} (v : list A) : result (list A) :=
  if (2 <=? length v)%nat then Ok (take (length v - 2)%nat v) else Err OutOfRange.

(** ** Protocol-buffer messages *)

Inductive DataType : Type :=
| UNDEFINED | FLOAT | INT32 | BYTE | STRING | BOOL | UINT8 | INT8
| UINT16 | INT16 | INT64 | FLOAT16 | DOUBLE.

(** Modelled from the spec: the message [TensorShape] and its maker
    [CreateTensorShape] are declared outside this file; a tensor shape is
    the ordered sequence of its dimensions plus the element data-type tag. *)
Record TensorShape : Type := CreateTensorShape {
  dims : list Z;
  data_type : DataType
}.

Definition dims_size (t : TensorShape) : Z := Z.of_nat (length (dims t)).

(** Modelled from the spec: the message [Argument] and [MakeArgument<int>]
    are declared outside this file; an argument is a key with an integer
    value. *)
Record Argument : Type := MakeArgument {
  name : string;
  i : Z
}.

(** Modelled from the spec: the message [OperatorDef] and its maker
    [CreateOperatorDef] are declared outside this file; an operator spec is
    the operator type name, a name, the ordered input and output identifiers
    and the ordered arguments. *)
Record OperatorDef : Type := CreateOperatorDef {
  type : string;
  op_name : string;
  input : list string;
  output : list string;
  arg : list Argument
}.

(** ** Argument lookup *)

(** Modelled from the spec: [ArgumentHelper] is declared outside this file;
    an option is looked up by its key, the first entry of that key counts. *)
Definition find_arg (args : list Argument) (key : string) : option Argument :=
  List.find (fun a => String.eqb (name a) key) args.

Definition HasArgument (def : OperatorDef) (key : string) : bool :=
  match find_arg (arg def) key with Some _ => true | None => false end.

Definition GetArgument (def : OperatorDef) (key : string) : result Argument :=
  match find_arg (arg def) key with
  | Some a => Ok a
  | None => Err (EnforceNotMet "")
  end.

(** The stored value of an argument, an [int64], or [default] when the key
    is absent. *)
Definition arg_value (def : OperatorDef) (key : string) (default : Z) : Z :=
  match find_arg (arg def) key with
  | Some a => i a
  | None => default
  end.

(** [GetSingleArgument<int>(key, default)]: the value is handed out as an
    [int]. A stored value within the range of [int] comes out as it is.
    What the helper, which is declared outside this file, makes of a stored
    value outside that range (narrowing it, or refusing it) is not settled
    here: such a read is the error [NotAnInt]. *)
Definition GetSingleArgument (def : OperatorDef) (key : string) (default : Z)
  : result Z :=
  match find_arg (arg def) key with
  | Some a => if is_intb (i a) then Ok (i a) else Err NotAnInt
  | None => Ok default
  end.

(** ** Shape inference *)

(** [for (int i = 0; i < n; ++i) dst[i] = src.dims(i);] with [k] iterations
    left and the counter at [i]. *)
Fixpoint copy_dims (k : nat) (i : Z) (src dst : list Z) : result (list Z) :=
  match k with
  | O => Ok dst
  | S k' =>
      x <- vec_get src i ;;
      dst' <- vec_set dst i x ;;
      copy_dims k' (i + 1) src dst'
  end.

(** The branch [if (!broadcast)]. *)
Definition infer_no_broadcast (def : OperatorDef) (in_ : list TensorShape)
  : result (list TensorShape) :=
  in0 <- vec_get in_ 0 ;;
  let ndim := dims_size in0 in
  _ <- CAFFE_ENFORCE (ndim >=? 2) "" ;;
  a_dim0 <-
    (trans_a <- GetSingleArgument def "trans_a" 0 ;;
     if truthy trans_a
     then d <- vec_get (dims in0) (ndim - 1) ;; Ok (to_int d)
     else d <- vec_get (dims in0) (ndim - 2) ;; Ok (to_int d)) ;;
  b_dim1 <-
    (trans_b <- GetSingleArgument def "trans_b" 0 ;;
     if truthy trans_b
     then in1 <- vec_get in_ 1 ;; d <- vec_get (dims in1) (ndim - 2) ;; Ok (to_int d)
     else in1 <- vec_get in_ 1 ;; d <- vec_get (dims in1) (ndim - 1) ;; Ok (to_int d)) ;;
  let output_dims := dims in0 in
  output_dims <- vec_set output_dims (ndim - 2) a_dim0 ;;
  output_dims <- vec_set output_dims (ndim - 1) b_dim1 ;;
  Ok [CreateTensorShape output_dims (data_type in0)].

(** The branch [else], broadcast mode. *)
Definition infer_broadcast (def : OperatorDef) (in_ : list TensorShape)
  : result (list TensorShape) :=
  in0 <- vec_get in_ 0 ;;
  let ndims_A := dims_size in0 in
  in1 <- vec_get in_ 1 ;;
  let ndims_B := dims_size in1 in
  dims_A <- copy_dims (Z.to_nat ndims_A) 0 (dims in0) (replicate (Z.to_nat ndims_A) 0) ;;
  dims_B <- copy_dims (Z.to_nat ndims_B) 0 (dims in1) (replicate (Z.to_nat ndims_B) 0) ;;
  let '(dims_A, ndims_A, A_broadcasted) :=
    if ndims_A =? 1 then (1 :: dims_A, 2, true) else (dims_A, ndims_A, false) in
  let '(dims_B, ndims_B, B_broadcasted) :=
    if ndims_B =? 1 then (dims_B ++ [1], 2, true) else (dims_B, ndims_B, false) in
  MK <-
    (trans_a <- GetSingleArgument def "trans_a" 0 ;;
     if truthy trans_a
     then m <- vec_get dims_A (ndims_A - 1) ;;
          k <- vec_get dims_A (ndims_A - 2) ;;
          Ok (to_size_t m, to_size_t k, to_size_t (ndims_A - 2))
     else m <- vec_get dims_A (ndims_A - 2) ;;
          k <- vec_get dims_A (ndims_A - 1) ;;
          Ok (to_size_t m, to_size_t k, to_size_t (ndims_A - 1))) ;;
  let '(M, K, K_dim) := MK in
  N <-
    (trans_b <- GetSingleArgument def "trans_b" 0 ;;
     if truthy trans_b
     then n <- vec_get dims_B (ndims_B - 2) ;; Ok (to_size_t n)
     else n <- vec_get dims_B (ndims_B - 1) ;; Ok (to_size_t n)) ;;
  new_dims <-
    (if ndims_A >=? ndims_B
     then vec_assign_but_last2 dims_A
     else vec_assign_but_last2 dims_B) ;;
  let new_dims := if negb A_broadcasted then new_dims ++ [to_TIndex M] else new_dims in
  let new_dims := if negb B_broadcasted then new_dims ++ [to_TIndex N] else new_dims in
  let new_dims := if A_broadcasted && B_broadcasted then new_dims ++ [1] else new_dims in
  Ok [CreateTensorShape new_dims (data_type in0)].

(** The function given to [TensorInferenceFunction] in the schema. *)
Definition TensorInferenceFunction (def : OperatorDef) (in_ : list TensorShape)
  : result (list TensorShape) :=
  broadcast <- GetSingleArgument def "broadcast" 0 ;;
  if negb (truthy broadcast)
  then infer_no_broadcast def in_
  else infer_broadcast def in_.

(** ** Gradient synthesis *)

(** Modelled from the spec: the base class [GradientMakerBase] is declared
    outside this file; the maker holds the forward operator's definition and
    the names of the gradients of its outputs. [I(i)] is the name of input
    [i], [GO(i)] the name of the gradient of output [i], and [GI(i)] the
    name under which the gradient of input [i] is produced; how that name is
    formed from the input's name is left open as [GradientName]. *)
Record GradientMakerBase : Type := {
  def_ : OperatorDef;
  g_output_ : list string
}.

Definition Def (mk : GradientMakerBase) : OperatorDef := def_ mk.

Definition input_size (def : OperatorDef) : Z := Z.of_nat (length (input def)).

Definition I (mk : GradientMakerBase) (k : Z) : result string :=
  vec_get (input (def_ mk)) k.

Definition GO (mk : GradientMakerBase) (k : Z) : result string :=
  vec_get (g_output_ mk) k.

Definition unsupported_msg : string :=
  "Gradient is currently not supported with broadcast=1 for BatchMatMul.".

Section Gradient.

Variable GradientName : string -> string.

Definition GI (mk : GradientMakerBase) (k : Z) : result string :=
  x <- vec_get (input (def_ mk)) k ;; Ok (GradientName x).

(** [b = GetArgument(Def(), key).i()] guarded by [HasArgument], for a
    [bool b] that starts out false. *)
Definition flag_of (mk : GradientMakerBase) (key : string) : result bool :=
  if HasArgument (Def mk) key
  then a <- GetArgument (Def mk) key ;; Ok (truthy (i a))
  else Ok false.

Definition GetGradientDefs (mk : GradientMakerBase) : result (list OperatorDef) :=
  _ <- CAFFE_ENFORCE (input_size (def_ mk) =? 2) "" ;;
  broadcast <- flag_of mk "broadcast" ;;
  _ <- CAFFE_ENFORCE (negb broadcast) unsupported_msg ;;
  trans_a <- flag_of mk "trans_a" ;;
  trans_b <- flag_of mk "trans_b" ;;
  let no_trans_arg : list Argument := [] in
  let trans_a_arg := [MakeArgument "trans_a" 1] in
  let trans_b_arg := [MakeArgument "trans_b" 1] in
  let trans_both_arg := [MakeArgument "trans_a" 1; MakeArgument "trans_b" 1] in
  let '(no_trans_arg, trans_a_arg, trans_b_arg, trans_both_arg) :=
    if HasArgument (Def mk) "use_scratch"
    then (no_trans_arg ++ [MakeArgument "use_scratch" 1],
          trans_a_arg ++ [MakeArgument "use_scratch" 1],
          trans_b_arg ++ [MakeArgument "use_scratch" 1],
          trans_both_arg ++ [MakeArgument "use_scratch" 1])
    else (no_trans_arg, trans_a_arg, trans_b_arg, trans_both_arg) in
  if trans_a then
    if trans_b then
      (* A'B': dA = B'G', dB = G'A' *)
      x1 <- I mk 1 ;; x2 <- GO mk 0 ;; y1 <- GI mk 0 ;;
      x3 <- GO mk 0 ;; x4 <- I mk 0 ;; y2 <- GI mk 1 ;;
      Ok [CreateOperatorDef "BatchMatMul" "" [x1; x2] [y1] trans_both_arg;
          CreateOperatorDef "BatchMatMul" "" [x3; x4] [y2] trans_both_arg]
    else
      (* A'B: dA = BG', dB = AG *)
      x1 <- I mk 1 ;; x2 <- GO mk 0 ;; y1 <- GI mk 0 ;;
      x3 <- I mk 0 ;; x4 <- GO mk 0 ;; y2 <- GI mk 1 ;;
      Ok [CreateOperatorDef "BatchMatMul" "" [x1; x2] [y1] trans_b_arg;
          CreateOperatorDef "BatchMatMul" "" [x3; x4] [y2] no_trans_arg]
  else
    if trans_b then
      (* AB': dA = GB, dB = G'A *)
      x1 <- GO mk 0 ;; x2 <- I mk 1 ;; y1 <- GI mk 0 ;;
      x3 <- GO mk 0 ;; x4 <- I mk 0 ;; y2 <- GI mk 1 ;;
      Ok [CreateOperatorDef "BatchMatMul" "" [x1; x2] [y1] no_trans_arg;
          CreateOperatorDef "BatchMatMul" "" [x3; x4] [y2] trans_a_arg]
    else
      (* AB: dA = GB', dB = A'G *)
      x1 <- GO mk 0 ;; x2 <- I mk 1 ;; y1 <- GI mk 0 ;;
      x3 <- I mk 0 ;; x4 <- GO mk 0 ;; y2 <- GI mk 1 ;;
      Ok [CreateOperatorDef "BatchMatMul" "" [x1; x2] [y1] trans_b_arg;
          CreateOperatorDef "BatchMatMul" "" [x3; x4] [y2] trans_a_arg].

(** [CopyArguments()] is overridden to return false: the arguments of the
    forward operator are not copied onto the emitted operators. *)
Definition CopyArguments : bool := false.

End Gradient.

(** ** The words of the specification *)

Definition rank (t : TensorShape) : nat := length (dims t).

Definition last_dim (l : list Z) : Z := List.last l 0.
Definition second_to_last_dim (l : list Z) : Z := List.last (removelast l) 0.

(** The leading entries of a shape, all but the trailing matrix axes. *)
Definition batch_dims (l : list Z) : list Z := removelast (removelast l).

(** Rows of the output: A's second-to-last dimension, or its last one when
    [trans_a] is set. *)
Definition spec_M (trans_a : bool) (A : list Z) : Z :=
  if trans_a then last_dim A else second_to_last_dim A.

(** Columns of the output: B's last dimension, or its second-to-last one
    when [trans_b] is set. *)
Definition spec_N (trans_b : bool) (B : list Z) : Z :=
  if trans_b then second_to_last_dim B else last_dim B.

(** The contracted axis of each operand. *)
Definition spec_K_A (trans_a : bool) (A : list Z) : Z :=
  if trans_a then second_to_last_dim A else last_dim A.
Definition spec_K_B (trans_b : bool) (B : list Z) : Z :=
  if trans_b then last_dim B else second_to_last_dim B.

(** Promotion of a 1-D operand in broadcast mode. *)
Definition is_1D (l : list Z) : bool := (length l =? 1)%nat.
Definition promote_A (A : list Z) : list Z := if is_1D A then 1 :: A else A.
Definition promote_B (B : list Z) : list Z := if is_1D B then B ++ [1] else B.

(** The batch part in broadcast mode: the leading entries of the operand
    that has more dimensions after promotion, A's on a tie. *)
Definition spec_broadcast_batch (A B : list Z) : list Z :=
  if (length (promote_B B) <=? length (promote_A A))%nat
  then batch_dims (promote_A A)
  else batch_dims (promote_B B).

(** The matrix part in broadcast mode. *)
Definition spec_broadcast_tail (trans_a trans_b : bool) (A B : list Z) : list Z :=
  (if is_1D A then [] else [spec_M trans_a (promote_A A)]) ++
  (if is_1D B then [] else [spec_N trans_b (promote_B B)]) ++
  (if is_1D A && is_1D B then [1] else []).

(** NumPy's rule for batch dimensions, which the operator does not follow:
    the two lists are aligned at their ends, the shorter one is filled with
    1 at the front, and each pair (equal, or one of them 1) gives its
    maximum. *)
Definition numpy_broadcast_batch (a b : list Z) : list Z :=
  let n := Nat.max (length a) (length b) in
  let a' := replicate (n - length a) 1 ++ a in
  let b' := replicate (n - length b) 1 ++ b in
  zip_with Z.max a' b'.

(** The table of the gradient operators: for each of the two gradients the
    ordered inputs and the transpose flags of the emitted operator, as a
    function of the forward operator's flags and of the names of A, B and
    of the gradient G of the output. *)
Definition trans_a1 : Argument := MakeArgument "trans_a" 1.
Definition trans_b1 : Argument := MakeArgument "trans_b" 1.

Definition spec_dA (trans_a trans_b : bool) (A B G : string)
  : list string * list Argument :=
  match trans_a, trans_b with
  | false, false => ([G; B], [trans_b1])            (* G . B^T *)
  | false, true  => ([G; B], [])                    (* G . B *)
  | true,  false => ([B; G], [trans_b1])            (* B . G^T *)
  | true,  true  => ([B; G], [trans_a1; trans_b1])  (* B^T . G^T *)
  end.

Definition spec_dB (trans_a trans_b : bool) (A B G : string)
  : list string * list Argument :=
  match trans_a, trans_b with
  | false, false => ([A; G], [trans_a1])            (* A^T . G *)
  | false, true  => ([G; A], [trans_a1])            (* G^T . A *)
  | true,  false => ([A; G], [])                    (* A . G *)
  | true,  true  => ([G; A], [trans_a1; trans_b1])  (* G^T . A^T *)
  end.

(** The configuration flags of an operator definition: the truth value of
    the stored argument, false when the key is absent. *)
Definition config_flag (def : OperatorDef) (key : string) : bool :=
  truthy (arg_value def key 0).

(** The stored value of an argument, if there is one, is in the range of
    [int]. *)
Definition fits_int (def : OperatorDef) (key : string) : bool :=
  match find_arg (arg def) key with
  | Some a => is_intb (i a)
  | None => true
  end.

(** The three flags that shape inference reads are in the range of [int]. *)
Definition flags_fit_int (def : OperatorDef) : bool :=
  fits_int def "broadcast" && fits_int def "trans_a" && fits_int def "trans_b".

(** The use_scratch argument appended to each argument vector. *)
Definition scratch_arg (def : OperatorDef) : list Argument :=
  if HasArgument def "use_scratch" then [MakeArgument "use_scratch" 1] else [].

(** An emitted operator: a BatchMatMul with the inputs and flags of a table
    entry, one output, and the scratch argument after the flags. *)
Definition emitted (entry : list string * list Argument) (out : string)
    (scratch : list Argument) : OperatorDef :=
  CreateOperatorDef "BatchMatMul" "" (fst entry) [out] (snd entry ++ scratch).

(** The dimensions of a stored shape are [TIndex] values. *)
Definition valid_dims (l : list Z) : bool := forallb is_TIndexb l.

(** The state of the broadcast branch after the two copy loops and the
    promotion of 1-D operands. *)
Definition after_promotion (l : list Z) (promoted : list Z) : list Z * Z * bool :=
  (promoted, Z.of_nat (length promoted), is_1D l).

(** ** Sample inputs *)

Definition plain_def : OperatorDef :=
  CreateOperatorDef "BatchMatMul" "" ["A"; "B"] ["Y"] [].

Definition def_with (args : list Argument) : OperatorDef :=
  CreateOperatorDef "BatchMatMul" "" ["A"; "B"] ["Y"] args.

Definition broadcast_def : OperatorDef := def_with [MakeArgument "broadcast" 1].

Definition float_shape (l : list Z) : TensorShape := CreateTensorShape l FLOAT.

Definition suffix_grad (s : string) : string := (s ++ "_grad")%string.

Definition maker_of (def : OperatorDef) : GradientMakerBase :=
  {| def_ := def; g_output_ := ["Y_grad"] |}.

(** An operator whose arguments are all among trans_a, trans_b and
    use_scratch, each with the value 1. *)
Definition only_flag_args (op : OperatorDef) : Prop :=
  Forall (fun a => i a = 1 /\
                   (name a = "trans_a" \/ name a = "trans_b" \/ name a = "use_scratch"))
         (arg op).

(** The counts of the schema: [NumInputs(2)] and [NumOutputs(1)]. *)
Definition schema_counts (op : OperatorDef) : Prop :=
  length (input op) = 2%nat /\ length (output op) = 1%nat.

(** A sample assignment of shapes to tensor names, for a forward operator
    with trans_a set: A is (2, 4, 3), B is (2, 4, 5), the output and its
    gradient are (2, 3, 5). *)
Definition sample_env (s : string) : TensorShape :=
  if String.eqb s "A" then float_shape [2; 4; 3]
  else if String.eqb s "B" then float_shape [2; 4; 5]
  else float_shape [2; 3; 5].

(** * Properties *)

(** Inversion of a successful run of monadic code. *)
Ltac bind_inv H :=
  repeat match type of H with
    | bind ?r _ = Ok _ =>
        let E := fresh "E" in
        destruct r eqn:E; cbn [bind] in H; [|discriminate H]
    | (let '(_, _) := ?p in _) = Ok _ => destruct p
    end.

(** ** Machine integers *)

Lemma to_int_id (z : Z) : is_int z -> to_int z = z.
Proof.
  unfold is_int, to_int, wrap_signed. intros Hz.
  change (2 ^ (32 - 1)) with (2 ^ 31).
  rewrite Z.mod_small; lia.
Qed.

(** A dimension read into a [size_t] and pushed back as a [TIndex] is
    unchanged. *)
Lemma to_TIndex_to_size_t (z : Z) : is_TIndex z -> to_TIndex (to_size_t z) = z.
Proof.
  unfold is_TIndex, to_TIndex, to_size_t, wrap_signed. intros Hz.
  change (2 ^ (64 - 1)) with (2 ^ 63).
  destruct (Z_lt_le_dec z 0) as [Hneg | Hpos].
  - replace (z mod 2 ^ 64) with (z + 2 ^ 64).
    + replace (z + 2 ^ 64 + 2 ^ 63) with (z + 2 ^ 63 + 1 * 2 ^ 64) by lia.
      rewrite Z.mod_add by lia. rewrite Z.mod_small; lia.
    + apply Z.mod_unique with (q := -1); lia.
  - rewrite (Z.mod_small z) by lia. rewrite Z.mod_small; lia.
Qed.

(** ** Vectors *)

Lemma two_last_inv {A : Type} (l : list A) :
  (2 <= length l)%nat -> exists b x y, l = b ++ [x; y].
Proof.
  intros Hlen.
  destruct (exists_last (l := l)) as [l1 [y ->]].
  { intros ->. simpl in Hlen. lia. }
  rewrite length_app in Hlen. simpl in Hlen.
  destruct (exists_last (l := l1)) as [b [x ->]].
  { intros ->. simpl in Hlen. lia. }
  exists b, x, y. by rewrite <- app_assoc.
Qed.

Lemma length_two_last {A : Type} (b : list A) (x y : A) :
  Z.of_nat (length (b ++ [x; y])) = Z.of_nat (length b) + 2.
Proof. rewrite length_app. simpl. lia. Qed.

Lemma vec_get_lookup {A : Type} (v : list A) (k : nat) (x : A) :
  v !! k = Some x -> vec_get v (Z.of_nat k) = Ok x.
Proof.
  intros Hk. unfold vec_get.
  destruct (Z.leb_spec 0 (Z.of_nat k)); [|lia].
  by rewrite Nat2Z.id, Hk.
Qed.

Lemma vec_get_in_range {A : Type} (v : list A) (k : Z) :
  0 <= k < Z.of_nat (length v) -> exists x, vec_get v k = Ok x.
Proof.
  intros Hk. unfold vec_get.
  destruct (Z.leb_spec 0 k); [|lia].
  destruct (v !! Z.to_nat k) as [x|] eqn:Hx; [by exists x|].
  apply lookup_ge_None in Hx. lia.
Qed.

Lemma vec_get_last {A : Type} (b : list A) (x y : A) :
  vec_get (b ++ [x; y]) (Z.of_nat (length b) + 1) = Ok y.
Proof.
  replace (Z.of_nat (length b) + 1) with (Z.of_nat (length b + 1)) by lia.
  apply vec_get_lookup.
  rewrite lookup_app_r by lia.
  by replace (length b + 1 - length b)%nat with 1%nat by lia.
Qed.

Lemma vec_get_second_to_last {A : Type} (b : list A) (x y : A) :
  vec_get (b ++ [x; y]) (Z.of_nat (length b)) = Ok x.
Proof.
  apply vec_get_lookup.
  rewrite lookup_app_r by lia.
  by rewrite Nat.sub_diag.
Qed.

Lemma vec_set_second_to_last {A : Type} (b : list A) (x y m : A) :
  vec_set (b ++ [x; y]) (Z.of_nat (length b)) m = Ok (b ++ [m; y]).
Proof.
  unfold vec_set. rewrite length_two_last.
  destruct (Z.leb_spec 0 (Z.of_nat (length b))); [|lia].
  destruct (Z.ltb_spec (Z.of_nat (length b)) (Z.of_nat (length b) + 2)); [|lia].
  simpl. rewrite Nat2Z.id.
  rewrite insert_app_r_alt by lia. by rewrite Nat.sub_diag.
Qed.

Lemma vec_set_last {A : Type} (b : list A) (x y n : A) :
  vec_set (b ++ [x; y]) (Z.of_nat (length b) + 1) n = Ok (b ++ [x; n]).
Proof.
  unfold vec_set. rewrite length_two_last.
  destruct (Z.leb_spec 0 (Z.of_nat (length b) + 1)); [|lia].
  destruct (Z.ltb_spec (Z.of_nat (length b) + 1) (Z.of_nat (length b) + 2)); [|lia].
  simpl. rewrite insert_app_r_alt by lia.
  by replace (Z.to_nat (Z.of_nat (length b) + 1) - length b)%nat with 1%nat by lia.
Qed.

Lemma vec_assign_but_last2_app {A : Type} (b : list A) (x y : A) :
  vec_assign_but_last2 (b ++ [x; y]) = Ok b.
Proof.
  unfold vec_assign_but_last2. rewrite length_app.
  change (length [x; y]) with 2%nat.
  destruct (Nat.leb_spec 2 (length b + 2)); [|lia].
  replace (length b + 2 - 2)%nat with (length b) by lia.
  by rewrite take_app_length.
Qed.

Lemma last_dim_app (b : list Z) (x y : Z) : last_dim (b ++ [x; y]) = y.
Proof.
  unfold last_dim.
  change (b ++ [x; y]) with (b ++ [x] ++ [y]). rewrite app_assoc.
  apply last_last.
Qed.

Lemma second_to_last_dim_app (b : list Z) (x y : Z) :
  second_to_last_dim (b ++ [x; y]) = x.
Proof.
  unfold second_to_last_dim.
  change (b ++ [x; y]) with (b ++ [x] ++ [y]). rewrite app_assoc.
  rewrite removelast_last. apply last_last.
Qed.

Lemma batch_dims_app (b : list Z) (x y : Z) : batch_dims (b ++ [x; y]) = b.
Proof.
  unfold batch_dims.
  change (b ++ [x; y]) with (b ++ [x] ++ [y]). rewrite app_assoc.
  by rewrite !removelast_last.
Qed.

(** The copy loop: with the counter at [length done_] and the destination
    holding the part already copied followed by zeros, the loop ends with
    the whole source in the destination. *)
Lemma copy_dims_from (todo done_ : list Z) :
  copy_dims (length todo) (Z.of_nat (length done_)) (done_ ++ todo)
            (done_ ++ replicate (length todo) 0)
  = Ok (done_ ++ todo).
Proof.
  revert done_. induction todo as [|d todo IH]; intros done_; simpl.
  - done.
  - rewrite (vec_get_lookup _ _ d) by (by rewrite list_lookup_middle).
    simpl.
    unfold vec_set. rewrite length_app. simpl. rewrite length_replicate.
    destruct (Z.leb_spec 0 (Z.of_nat (length done_))); [|lia].
    destruct (Z.ltb_spec (Z.of_nat (length done_))
                (Z.of_nat (length done_ + S (length todo)))); [|lia].
    simpl. rewrite Nat2Z.id.
    rewrite insert_app_r_alt by lia. rewrite Nat.sub_diag. simpl.
    specialize (IH (done_ ++ [d])).
    rewrite length_app in IH. simpl in IH.
    replace (Z.of_nat (length done_) + 1) with (Z.of_nat (length done_ + 1)) by lia.
    rewrite <- !app_assoc in IH. simpl in IH. exact IH.
Qed.

Lemma copy_dims_all (src : list Z) :
  copy_dims (Z.to_nat (Z.of_nat (length src))) 0 src
            (replicate (Z.to_nat (Z.of_nat (length src))) 0)
  = Ok src.
Proof.
  rewrite Nat2Z.id. exact (copy_dims_from src []).
Qed.

Lemma vec_get_last_at {A : Type} (b : list A) (x y : A) (n : Z) :
  n = Z.of_nat (length b) + 2 -> vec_get (b ++ [x; y]) (n - 1) = Ok y.
Proof.
  intros ->. replace (Z.of_nat (length b) + 2 - 1) with (Z.of_nat (length b) + 1) by lia.
  apply vec_get_last.
Qed.

Lemma vec_get_second_to_last_at {A : Type} (b : list A) (x y : A) (n : Z) :
  n = Z.of_nat (length b) + 2 -> vec_get (b ++ [x; y]) (n - 2) = Ok x.
Proof.
  intros ->. replace (Z.of_nat (length b) + 2 - 2) with (Z.of_nat (length b)) by lia.
  apply vec_get_second_to_last.
Qed.

(** ** Argument lookup *)

Lemma flag_of_config (mk : GradientMakerBase) (key : string) :
  flag_of mk key = Ok (config_flag (Def mk) key).
Proof.
  unfold flag_of, config_flag, HasArgument, GetArgument, arg_value.
  destruct (find_arg (arg (Def mk)) key); reflexivity.
Qed.

Lemma GetSingleArgument_fits (def : OperatorDef) (key : string) :
  fits_int def key = true ->
  GetSingleArgument def key 0 = Ok (arg_value def key 0).
Proof.
  unfold fits_int, GetSingleArgument, arg_value.
  destruct (find_arg (arg def) key); [|done]. by intros ->.
Qed.

Lemma GetSingleArgument_flag (def : OperatorDef) (key : string) :
  flags_fit_int def = true ->
  key = "broadcast" \/ key = "trans_a" \/ key = "trans_b" ->
  GetSingleArgument def key 0 = Ok (arg_value def key 0).
Proof.
  unfold flags_fit_int. intros H Hkey.
  apply andb_prop in H as [H Hb]. apply andb_prop in H as [Hbc Ha].
  apply GetSingleArgument_fits.
  destruct Hkey as [-> | [-> | ->]]; assumption.
Qed.

(** A flag that is off is absent or stored as 0, and is read as 0. *)
Lemma GetSingleArgument_off (def : OperatorDef) (key : string) :
  config_flag def key = false -> GetSingleArgument def key 0 = Ok 0.
Proof.
  unfold config_flag, GetSingleArgument, arg_value, truthy.
  destruct (find_arg (arg def) key) as [a|]; [|done].
  intros H. apply negb_false_iff in H. apply Z.eqb_eq in H. by rewrite H.
Qed.

Ltac read_flags def :=
  rewrite ?(GetSingleArgument_flag def "trans_a") by (done || auto);
  rewrite ?(GetSingleArgument_flag def "trans_b") by (done || auto);
  cbn [bind].

(** ** Shape inference without broadcasting *)

(** What the branch computes once the two entries of B are readable at the
    positions counted from A's rank. *)
Lemma infer_no_broadcast_value (def : OperatorDef) (A B : TensorShape)
    (rest : list TensorShape) (ba : list Z) (xa ya xb yb : Z) :
  flags_fit_int def = true ->
  dims A = ba ++ [xa; ya] ->
  vec_get (dims B) (dims_size A - 2) = Ok xb ->
  vec_get (dims B) (dims_size A - 1) = Ok yb ->
  infer_no_broadcast def (A :: B :: rest) =
  Ok [CreateTensorShape
        (ba ++ [to_int (if config_flag def "trans_a" then ya else xa);
                to_int (if config_flag def "trans_b" then xb else yb)])
        (data_type A)].
Proof.
  intros Hfit HA Hxb Hyb.
  assert (Hn : dims_size A = Z.of_nat (length ba) + 2).
  { unfold dims_size. rewrite HA. apply length_two_last. }
  unfold infer_no_broadcast.
  change (vec_get (A :: B :: rest) 0) with (Ok A).
  change (vec_get (A :: B :: rest) 1) with (Ok B).
  cbn [bind].
  rewrite Z.geb_leb.
  destruct (Z.leb_spec 2 (dims_size A)); [|lia]. cbn [CAFFE_ENFORCE bind].
  read_flags def.
  rewrite Hxb, Hyb. rewrite HA.
  rewrite (vec_get_last_at ba xa ya _ Hn).
  rewrite (vec_get_second_to_last_at ba xa ya _ Hn).
  fold (config_flag def "trans_a"). fold (config_flag def "trans_b").
  replace (dims_size A - 2) with (Z.of_nat (length ba)) by lia.
  replace (dims_size A - 1) with (Z.of_nat (length ba) + 1) by lia.
  destruct (config_flag def "trans_a"), (config_flag def "trans_b"); cbn [bind];
    rewrite vec_set_second_to_last; cbn [bind];
    rewrite vec_set_last; reflexivity.
Qed.

Lemma TensorInference_no_broadcast (def : OperatorDef) (in_ : list TensorShape) :
  config_flag def "broadcast" = false ->
  TensorInferenceFunction def in_ = infer_no_broadcast def in_.
Proof.
  intros Hbc. unfold TensorInferenceFunction.
  by rewrite GetSingleArgument_off.
Qed.

Lemma TensorInference_broadcast (def : OperatorDef) (in_ : list TensorShape) :
  flags_fit_int def = true ->
  config_flag def "broadcast" = true ->
  TensorInferenceFunction def in_ = infer_broadcast def in_.
Proof.
  intros Hfit Hbc. unfold TensorInferenceFunction.
  rewrite (GetSingleArgument_flag def "broadcast") by (done || auto).
  cbn [bind]. fold (config_flag def "broadcast"). by rewrite Hbc.
Qed.

(** The branch, for a first shape of rank at least 2, as a function of the
    two flags and of the single entry of B that it reads. *)
Lemma infer_no_broadcast_steps (def : OperatorDef) (A B : TensorShape)
    (ba : list Z) (xa ya : Z) :
  dims A = ba ++ [xa; ya] ->
  infer_no_broadcast def [A; B] =
  (trans_a <- GetSingleArgument def "trans_a" 0 ;;
   trans_b <- GetSingleArgument def "trans_b" 0 ;;
   d <- vec_get (dims B) (dims_size A - (if truthy trans_b then 2 else 1)) ;;
   Ok [CreateTensorShape
         (ba ++ [to_int (if truthy trans_a then ya else xa); to_int d])
         (data_type A)]).
Proof.
  intros HA.
  assert (Hn : dims_size A = Z.of_nat (length ba) + 2).
  { unfold dims_size. rewrite HA. apply length_two_last. }
  assert (Hm2 : dims_size A - 2 = Z.of_nat (length ba)) by lia.
  assert (Hm1 : dims_size A - 1 = Z.of_nat (length ba) + 1) by lia.
  unfold infer_no_broadcast.
  change (vec_get [A; B] 0) with (Ok A).
  change (vec_get [A; B] 1) with (Ok B).
  cbn [bind]. rewrite Z.geb_leb.
  destruct (Z.leb_spec 2 (dims_size A)); [|lia]. cbn [CAFFE_ENFORCE bind].
  rewrite HA.
  rewrite (vec_get_last_at ba xa ya _ Hn).
  rewrite (vec_get_second_to_last_at ba xa ya _ Hn).
  destruct (GetSingleArgument def "trans_a" 0) as [ta|]; cbn [bind]; [|reflexivity].
  destruct (truthy ta); cbn [bind];
    (destruct (GetSingleArgument def "trans_b" 0) as [tb|]; cbn [bind]; [|reflexivity]);
    destruct (truthy tb); cbn [bind]; rewrite ?Hm2, ?Hm1;
    match goal with
    | |- context [vec_get (dims B) ?k] => destruct (vec_get (dims B) k)
    end; cbn [bind]; try reflexivity;
    rewrite vec_set_second_to_last; cbn [bind];
    rewrite vec_set_last; reflexivity.
Qed.

Lemma infer_no_broadcast_reads (def : OperatorDef) (A B : TensorShape)
    (ba : list Z) (xa ya : Z) :
  flags_fit_int def = true ->
  dims A = ba ++ [xa; ya] ->
  infer_no_broadcast def [A; B] =
  (d <- vec_get (dims B)
          (dims_size A - (if config_flag def "trans_b" then 2 else 1)) ;;
   Ok [CreateTensorShape
         (ba ++ [to_int (if config_flag def "trans_a" then ya else xa); to_int d])
         (data_type A)]).
Proof.
  intros Hfit HA. rewrite (infer_no_broadcast_steps def A B ba xa ya HA).
  read_flags def. reflexivity.
Qed.

(** Equal ranks: the leading entries of A followed by the two entries read
    from A and B, each passed through an [int]. *)
Lemma infer_no_broadcast_same_rank (def : OperatorDef) (A B : TensorShape) :
  flags_fit_int def = true ->
  (2 <= rank A)%nat -> rank A = rank B ->
  infer_no_broadcast def [A; B] =
  Ok [CreateTensorShape
        (batch_dims (dims A) ++
           [to_int (spec_M (config_flag def "trans_a") (dims A));
            to_int (spec_N (config_flag def "trans_b") (dims B))])
        (data_type A)].
Proof.
  unfold rank. intros Hfit H2 Heq.
  destruct (two_last_inv (dims A) H2) as (ba & xa & ya & HA).
  destruct (two_last_inv (dims B)) as (bb & xb & yb & HB); [lia|].
  assert (Hlen : length bb = length ba).
  { rewrite HA, HB, !length_app in Heq. simpl in Heq. lia. }
  assert (Hn : dims_size A = Z.of_nat (length bb) + 2).
  { unfold dims_size. rewrite HA, length_two_last. lia. }
  rewrite (infer_no_broadcast_value def A B [] ba xa ya xb yb Hfit HA).
  - unfold spec_M, spec_N. rewrite HA, HB.
    rewrite batch_dims_app, !last_dim_app, !second_to_last_dim_app.
    by destruct (config_flag def "trans_a"), (config_flag def "trans_b").
  - rewrite HB. by apply vec_get_second_to_last_at.
  - rewrite HB. by apply vec_get_last_at.
Qed.

(** ** Shape inference with broadcasting *)

Lemma promote_A_cases (A : list Z) :
  (1 <= length A)%nat ->
  exists b x y, promote_A A = b ++ [x; y] /\
    ((is_1D A = true /\ A = [y] /\ b = [] /\ x = 1) \/
     (is_1D A = false /\ A = b ++ [x; y])).
Proof.
  intros Hlen. unfold promote_A, is_1D.
  destruct (Nat.eqb_spec (length A) 1) as [H1 | H1].
  - destruct A as [|y [|? ?]]; try discriminate.
    exists [], 1, y. split; [done|]. left. done.
  - destruct (two_last_inv A) as (b & x & y & ->); [lia|].
    exists b, x, y. split; [done|]. right. done.
Qed.

Lemma promote_B_cases (B : list Z) :
  (1 <= length B)%nat ->
  exists b x y, promote_B B = b ++ [x; y] /\
    ((is_1D B = true /\ B = [x] /\ b = [] /\ y = 1) \/
     (is_1D B = false /\ B = b ++ [x; y])).
Proof.
  intros Hlen. unfold promote_B, is_1D.
  destruct (Nat.eqb_spec (length B) 1) as [H1 | H1].
  - destruct B as [|x [|? ?]]; try discriminate.
    exists [], x, 1. split; [done|]. left. done.
  - destruct (two_last_inv B) as (b & x & y & ->); [lia|].
    exists b, x, y. split; [done|]. right. done.
Qed.

Lemma is_TIndex_1 : is_TIndex 1.
Proof. unfold is_TIndex. lia. Qed.

Lemma Forall_two_last (P : Z -> Prop) (b : list Z) (x y : Z) :
  Forall P (b ++ [x; y]) -> P x /\ P y.
Proof.
  rewrite Forall_app. intros [_ H]. inversion H as [|? ? Hx H']; subst.
  inversion H' as [|? ? Hy _]; subst. done.
Qed.

Lemma promote_A_TIndex (A b : list Z) (x y : Z) :
  Forall is_TIndex A -> promote_A A = b ++ [x; y] -> is_TIndex x /\ is_TIndex y.
Proof.
  intros HA Hp. apply (Forall_two_last is_TIndex b). rewrite <- Hp.
  unfold promote_A. destruct (is_1D A); [|done].
  constructor; [apply is_TIndex_1 | done].
Qed.

Lemma promote_B_TIndex (B b : list Z) (x y : Z) :
  Forall is_TIndex B -> promote_B B = b ++ [x; y] -> is_TIndex x /\ is_TIndex y.
Proof.
  intros HB Hp. apply (Forall_two_last is_TIndex b). rewrite <- Hp.
  unfold promote_B. destruct (is_1D B); [|done].
  apply Forall_app. split; [done|]. constructor; [apply is_TIndex_1 | done].
Qed.

Lemma promotion_step_A (A : list Z) :
  (1 <= length A)%nat ->
  (if Z.of_nat (length A) =? 1 then (1 :: A, 2, true) else (A, Z.of_nat (length A), false))
  = after_promotion A (promote_A A).
Proof.
  intros Hlen. unfold after_promotion, promote_A, is_1D.
  destruct (Nat.eqb_spec (length A) 1) as [H1 | H1].
  - cbn [length]. rewrite H1. done.
  - destruct (Z.eqb_spec (Z.of_nat (length A)) 1); [lia|done].
Qed.

Lemma promotion_step_B (B : list Z) :
  (1 <= length B)%nat ->
  (if Z.of_nat (length B) =? 1 then (B ++ [1], 2, true) else (B, Z.of_nat (length B), false))
  = after_promotion B (promote_B B).
Proof.
  intros Hlen. unfold after_promotion, promote_B, is_1D.
  destruct (Nat.eqb_spec (length B) 1) as [H1 | H1].
  - rewrite length_app. cbn [length]. rewrite H1. done.
  - destruct (Z.eqb_spec (Z.of_nat (length B)) 1); [lia|done].
Qed.

(** In broadcast mode, for operands of rank at least 1 whose dimensions are
    [TIndex] values, the branch returns the batch part followed by the
    matrix part. *)
Lemma infer_broadcast_value (def : OperatorDef) (A B : TensorShape) :
  flags_fit_int def = true ->
  (1 <= rank A)%nat -> (1 <= rank B)%nat ->
  Forall is_TIndex (dims A) -> Forall is_TIndex (dims B) ->
  infer_broadcast def [A; B] =
  Ok [CreateTensorShape
        (spec_broadcast_batch (dims A) (dims B) ++
         spec_broadcast_tail (config_flag def "trans_a") (config_flag def "trans_b")
                             (dims A) (dims B))
        (data_type A)].
Proof.
  unfold rank. intros Hfit HrA HrB HtA HtB.
  unfold infer_broadcast.
  change (vec_get [A; B] 0) with (Ok A).
  change (vec_get [A; B] 1) with (Ok B).
  cbn [bind]. unfold dims_size.
  rewrite !copy_dims_all. cbn [bind].
  read_flags def.
  rewrite (promotion_step_A _ HrA), (promotion_step_B _ HrB).
  unfold after_promotion.
  unfold spec_broadcast_batch, spec_broadcast_tail, spec_M, spec_N.
  fold (config_flag def "trans_a"). fold (config_flag def "trans_b").
  destruct (promote_A_cases _ HrA) as (ba & xa & ya & HpA & HcA).
  destruct (promote_B_cases _ HrB) as (bb & xb & yb & HpB & HcB).
  destruct (promote_A_TIndex _ _ _ _ HtA HpA) as [Hxa Hya].
  destruct (promote_B_TIndex _ _ _ _ HtB HpB) as [Hxb Hyb].
  rewrite HpA, HpB.
  rewrite !batch_dims_app, !last_dim_app, !second_to_last_dim_app.
  rewrite !(vec_get_last_at ba xa ya) by apply length_two_last.
  rewrite !(vec_get_second_to_last_at ba xa ya) by apply length_two_last.
  rewrite !(vec_get_last_at bb xb yb) by apply length_two_last.
  rewrite !(vec_get_second_to_last_at bb xb yb) by apply length_two_last.
  rewrite !vec_assign_but_last2_app. rewrite Z.geb_leb.
  assert (Hcmp : (Z.of_nat (length (bb ++ [xb; yb])) <=? Z.of_nat (length (ba ++ [xa; ya])))
                 = (length (bb ++ [xb; yb]) <=? length (ba ++ [xa; ya]))%nat).
  { destruct (Z.leb_spec (Z.of_nat (length (bb ++ [xb; yb]))) (Z.of_nat (length (ba ++ [xa; ya]))));
    destruct (Nat.leb_spec (length (bb ++ [xb; yb])) (length (ba ++ [xa; ya]))); lia || done. }
  rewrite Hcmp. clear Hcmp.
  destruct (config_flag def "trans_a"), (config_flag def "trans_b"); cbn [bind];
    rewrite ?to_TIndex_to_size_t by assumption;
    destruct (length (bb ++ [xb; yb]) <=? length (ba ++ [xa; ya]))%nat;
    destruct (is_1D (dims A)), (is_1D (dims B)); cbn [negb andb app bind];
    rewrite <- ?app_assoc; reflexivity.
Qed.

(** ** Gradient synthesis *)

Lemma GetGradientDefs_value (GradientName : string -> string)
    (mk : GradientMakerBase) (A B G : string) (gs : list string) :
  input (def_ mk) = [A; B] ->
  g_output_ mk = G :: gs ->
  config_flag (Def mk) "broadcast" = false ->
  GetGradientDefs GradientName mk =
  Ok [emitted (spec_dA (config_flag (Def mk) "trans_a") (config_flag (Def mk) "trans_b") A B G)
              (GradientName A) (scratch_arg (Def mk));
      emitted (spec_dB (config_flag (Def mk) "trans_a") (config_flag (Def mk) "trans_b") A B G)
              (GradientName B) (scratch_arg (Def mk))].
Proof.
  intros Hin Hgo Hbc.
  unfold GetGradientDefs, input_size, I, GO, GI.
  rewrite !flag_of_config, Hbc, Hin, Hgo.
  change (vec_get [A; B] 0) with (Ok A).
  change (vec_get [A; B] 1) with (Ok B).
  change (vec_get (G :: gs) 0) with (Ok G).
  unfold emitted, scratch_arg, spec_dA, spec_dB.
  cbn [bind CAFFE_ENFORCE negb length Z.of_nat].
  destruct (HasArgument (Def mk) "use_scratch"),
    (config_flag (Def mk) "trans_a"), (config_flag (Def mk) "trans_b");
    reflexivity.
Qed.

Lemma GetGradientDefs_broadcast (GradientName : string -> string)
    (mk : GradientMakerBase) :
  config_flag (Def mk) "broadcast" = true ->
  GetGradientDefs GradientName mk =
  if input_size (def_ mk) =? 2
  then Err (EnforceNotMet unsupported_msg)
  else Err (EnforceNotMet "").
Proof.
  intros Hbc. unfold GetGradientDefs.
  rewrite flag_of_config, Hbc.
  destruct (input_size (def_ mk) =? 2); reflexivity.
Qed.

(** ** Bridges between the boolean checks and the ranges *)

Lemma is_intb_spec (z : Z) : is_intb z = true -> is_int z.
Proof.
  unfold is_intb, is_int. intros H. apply andb_prop in H as [H1 H2].
  apply Z.leb_le in H1. apply Z.ltb_lt in H2. lia.
Qed.

Lemma is_TIndexb_spec (z : Z) : is_TIndexb z = true -> is_TIndex z.
Proof.
  unfold is_TIndexb, is_TIndex. intros H. apply andb_prop in H as [H1 H2].
  apply Z.leb_le in H1. apply Z.ltb_lt in H2. lia.
Qed.

Lemma valid_dims_Forall (l : list Z) : valid_dims l = true -> Forall is_TIndex l.
Proof.
  unfold valid_dims. induction l as [|z l IH]; simpl; intros H.
  - constructor.
  - apply andb_prop in H as [Hz Hl]. constructor; [by apply is_TIndexb_spec | by apply IH].
Qed.

Lemma infer_no_broadcast_low_rank (def : OperatorDef) (A : TensorShape)
    (rest : list TensorShape) :
  (rank A < 2)%nat -> infer_no_broadcast def (A :: rest) = Err (EnforceNotMet "").
Proof.
  unfold rank. intros Hr. unfold infer_no_broadcast.
  change (vec_get (A :: rest) 0) with (Ok A). cbn [bind].
  unfold dims_size. rewrite Z.geb_leb.
  destruct (Z.leb_spec 2 (Z.of_nat (length (dims A)))); [lia|].
  reflexivity.
Qed.

(** * The claims *)

(** ** Non-broadcast mode *)

(** C1, at a dimension outside the range of [int]: with A of shape
    (2147483648, 1) and B of shape (1, 1), ranks and contraction dimension
    matching and no transposes, the row count M of the output should be A's
    second-to-last dimension 2147483648; the inferred shape has
    -2147483648 there, because the entry passes through an [int]. *)
Theorem no_broadcast_rows_pass_through_int :
  config_flag plain_def "broadcast" = false /\
  rank (float_shape [2147483648; 1]) = rank (float_shape [1; 1]) /\
  spec_K_A (config_flag plain_def "trans_a") [2147483648; 1] =
    spec_K_B (config_flag plain_def "trans_b") [1; 1] /\
  spec_M (config_flag plain_def "trans_a") [2147483648; 1] = 2147483648 /\
  spec_N (config_flag plain_def "trans_b") [1; 1] = 1 /\
  TensorInferenceFunction plain_def [float_shape [2147483648; 1]; float_shape [1; 1]]
  = Ok [float_shape [-2147483648; 1]].
Proof. vm_compute. repeat split. Qed.

(** C8: with broadcast off, shape inference fails with the enforce error
    for every input whose first shape has rank below 2. *)
Theorem low_rank_rejected (def : OperatorDef) (A : TensorShape)
    (rest : list TensorShape) :
  config_flag def "broadcast" = false ->
  (rank A < 2)%nat ->
  TensorInferenceFunction def (A :: rest) = Err (EnforceNotMet "").
Proof.
  intros Hbc Hr. rewrite TensorInference_no_broadcast by done.
  by apply infer_no_broadcast_low_rank.
Qed.

Lemma low_rank_rejected_witness :
  TensorInferenceFunction plain_def [float_shape [7]; float_shape [7; 5]]
  = Err (EnforceNotMet "").
Proof.
  apply (low_rank_rejected plain_def (float_shape [7]) [float_shape [7; 5]]).
  - reflexivity.
  - vm_compute. lia.
Defined.

(** C5 as claimed fails: with broadcast off, A of shape (2, 3) and B of
    shape (5, 3, 4) have different ranks, and shape inference returns the
    shape (2, 3) instead of failing. *)
Lemma rank_mismatch_accepted :
  config_flag plain_def "broadcast" = false /\
  rank (float_shape [2; 3]) <> rank (float_shape [5; 3; 4]) /\
  TensorInferenceFunction plain_def [float_shape [2; 3]; float_shape [5; 3; 4]]
  = Ok [float_shape [2; 3]].
Proof. vm_compute. repeat split. discriminate. Qed.

(** C5, amended: with broadcast off the rank of B is not compared with the
    rank of A. Shape inference fails with the enforce error when A has rank
    below 2. When B has at least the rank of A and that rank is at least 2,
    it returns A's leading entries followed by (M, n): M is A's
    second-to-last dimension (the last one with trans_a) and n is the
    single entry of B that is read, the one at index rank(A) - 1
    (rank(A) - 2 with trans_b), an index counted from A's rank; this for M
    and n, and the stored flags, in the range of [int]. *)
Theorem rank_mismatch_not_checked (def : OperatorDef) (A B : TensorShape) :
  config_flag def "broadcast" = false ->
  ((rank A < 2)%nat ->
   TensorInferenceFunction def [A; B] = Err (EnforceNotMet "")) /\
  (forall n : Z,
     flags_fit_int def = true ->
     (2 <= rank A <= rank B)%nat ->
     dims B !! (rank A - (if config_flag def "trans_b" then 2 else 1))%nat = Some n ->
     is_intb (spec_M (config_flag def "trans_a") (dims A)) = true ->
     is_intb n = true ->
     TensorInferenceFunction def [A; B] =
     Ok [CreateTensorShape
           (batch_dims (dims A) ++ [spec_M (config_flag def "trans_a") (dims A); n])
           (data_type A)]).
Proof.
  intros Hbc. rewrite TensorInference_no_broadcast by done. split.
  - by apply infer_no_broadcast_low_rank.
  - unfold rank. intros n Hfit [H2 Hle] Hn HM Hint.
    destruct (two_last_inv (dims A) H2) as (ba & xa & ya & HA).
    rewrite (infer_no_broadcast_reads def A B ba xa ya Hfit HA).
    apply vec_get_lookup in Hn.
    replace (Z.of_nat (length (dims A) - (if config_flag def "trans_b" then 2 else 1)))
      with (dims_size A - (if config_flag def "trans_b" then 2 else 1)) in Hn
      by (unfold dims_size; destruct (config_flag def "trans_b"); lia).
    rewrite Hn. cbn [bind].
    revert HM. unfold spec_M. rewrite HA.
    rewrite batch_dims_app, last_dim_app, second_to_last_dim_app. intros HM.
    rewrite !to_int_id by (by apply is_intb_spec).
    by destruct (config_flag def "trans_a").
Qed.

Lemma rank_mismatch_not_checked_witness :
  TensorInferenceFunction plain_def [float_shape [2; 3]; float_shape [5; 3; 4]] =
  Ok [CreateTensorShape
        (batch_dims [2; 3] ++ [spec_M (config_flag plain_def "trans_a") [2; 3]; 3])
        FLOAT].
Proof.
  apply (proj2 (rank_mismatch_not_checked plain_def (float_shape [2; 3])
                  (float_shape [5; 3; 4]) eq_refl) 3);
    try reflexivity. vm_compute. lia.
Defined.

(** Equal ranks of at least 2 in broadcast mode: nothing is promoted, the
    batch part is A's, and the matrix part is (M, N). *)
Lemma broadcast_same_rank_batch (A B : list Z) :
  (2 <= length A)%nat -> length A = length B ->
  spec_broadcast_batch A B = batch_dims A.
Proof.
  intros H2 Heq. unfold spec_broadcast_batch, promote_A, promote_B, is_1D.
  destruct (Nat.eqb_spec (length A) 1); [lia|].
  destruct (Nat.eqb_spec (length B) 1); [lia|].
  destruct (Nat.leb_spec (length B) (length A)); [done|lia].
Qed.

Lemma broadcast_same_rank_tail (ta tb : bool) (A B : list Z) :
  (2 <= length A)%nat -> length A = length B ->
  spec_broadcast_tail ta tb A B = [spec_M ta A; spec_N tb B].
Proof.
  intros H2 Heq. unfold spec_broadcast_tail, promote_A, promote_B, is_1D.
  destruct (Nat.eqb_spec (length A) 1); [lia|].
  destruct (Nat.eqb_spec (length B) 1); [lia|].
  reflexivity.
Qed.

(** C4 as claimed fails: A of shape (2, 3, 4) and B of shape (2, 5, 6)
    without transposes have contraction dimensions 4 and 5, and shape
    inference returns (2, 3, 6) with broadcast off as well as on. *)
Lemma contraction_mismatch_accepted :
  spec_K_A (config_flag plain_def "trans_a") [2; 3; 4] <>
    spec_K_B (config_flag plain_def "trans_b") [2; 5; 6] /\
  TensorInferenceFunction plain_def [float_shape [2; 3; 4]; float_shape [2; 5; 6]]
  = Ok [float_shape [2; 3; 6]] /\
  TensorInferenceFunction broadcast_def [float_shape [2; 3; 4]; float_shape [2; 5; 6]]
  = Ok [float_shape [2; 3; 6]].
Proof. vm_compute. repeat split. discriminate. Qed.

(** C4, amended: the contraction dimensions of A and B are not compared,
    in either mode. For A and B of the same rank, at least 2, whose output
    dimensions M and N are in the range of [int], and an operator whose
    stored flags are in that range, shape inference returns A's leading
    entries followed by (M, N), whatever the contracted axes of A and B
    hold. *)
Theorem contraction_not_checked (def : OperatorDef) (A B : TensorShape) :
  flags_fit_int def = true ->
  (2 <= rank A)%nat -> rank A = rank B ->
  valid_dims (dims A) = true -> valid_dims (dims B) = true ->
  is_intb (spec_M (config_flag def "trans_a") (dims A)) = true ->
  is_intb (spec_N (config_flag def "trans_b") (dims B)) = true ->
  TensorInferenceFunction def [A; B] =
  Ok [CreateTensorShape
        (batch_dims (dims A) ++
           [spec_M (config_flag def "trans_a") (dims A);
            spec_N (config_flag def "trans_b") (dims B)])
        (data_type A)].
Proof.
  intros Hfit H2 Heq HvA HvB HM HN.
  destruct (config_flag def "broadcast") eqn:Hbc.
  - rewrite TensorInference_broadcast by done.
    rewrite infer_broadcast_value;
      [| done | unfold rank in *; lia | unfold rank in *; lia
       | by apply valid_dims_Forall | by apply valid_dims_Forall].
    rewrite broadcast_same_rank_batch, broadcast_same_rank_tail by done.
    reflexivity.
  - rewrite TensorInference_no_broadcast by done.
    rewrite infer_no_broadcast_same_rank by done.
    rewrite !to_int_id by (by apply is_intb_spec).
    reflexivity.
Qed.

Lemma contraction_not_checked_witness :
  TensorInferenceFunction plain_def [float_shape [2; 3; 4]; float_shape [2; 5; 6]] =
  Ok [CreateTensorShape
        (batch_dims [2; 3; 4] ++
           [spec_M (config_flag plain_def "trans_a") [2; 3; 4];
            spec_N (config_flag plain_def "trans_b") [2; 5; 6]])
        FLOAT].
Proof.
  apply (contraction_not_checked plain_def (float_shape [2; 3; 4]) (float_shape [2; 5; 6])).
  - reflexivity.
  - vm_compute. lia.
  - reflexivity.
  - reflexivity.
  - reflexivity.
  - reflexivity.
  - reflexivity.
Defined.

(** ** Broadcast mode *)

Lemma spec_broadcast_tail_length (ta tb : bool) (A B : list Z) :
  (1 <= length (spec_broadcast_tail ta tb A B) <= 2)%nat.
Proof.
  unfold spec_broadcast_tail.
  destruct (is_1D A), (is_1D B); simpl; lia.
Qed.

(** C6: in broadcast mode a 1-D A is promoted with a leading 1 and a 1-D B
    with a trailing 1; the inferred shape is the batch part followed by M
    unless A was promoted, by N unless B was promoted, and by a single 1
    when both were. In particular a 1-D A of length K with B of shape
    (K, N), B not transposed, gives the shape (N). The flags are those of
    an operator whose stored flag values are in the range of [int], as
    they are read. *)
Theorem broadcast_promotion_rule (def : OperatorDef) (A B : TensorShape) :
  flags_fit_int def = true ->
  config_flag def "broadcast" = true ->
  (1 <= rank A)%nat -> (1 <= rank B)%nat ->
  valid_dims (dims A) = true -> valid_dims (dims B) = true ->
  TensorInferenceFunction def [A; B] =
    Ok [CreateTensorShape
          (spec_broadcast_batch (dims A) (dims B) ++
           (if is_1D (dims A) then []
            else [spec_M (config_flag def "trans_a") (promote_A (dims A))]) ++
           (if is_1D (dims B) then []
            else [spec_N (config_flag def "trans_b") (promote_B (dims B))]) ++
           (if is_1D (dims A) && is_1D (dims B) then [1] else []))
          (data_type A)] /\
  (forall K N : Z,
     dims A = [K] -> dims B = [K; N] -> config_flag def "trans_b" = false ->
     TensorInferenceFunction def [A; B] = Ok [CreateTensorShape [N] (data_type A)]).
Proof.
  intros Hfit Hbc HrA HrB HvA HvB.
  rewrite TensorInference_broadcast by done.
  rewrite infer_broadcast_value by (done || by apply valid_dims_Forall).
  split; [reflexivity|].
  intros K N HA HB Htb. rewrite HA, HB, Htb. reflexivity.
Qed.

Lemma broadcast_promotion_rule_witness :
  TensorInferenceFunction broadcast_def [float_shape [7]; float_shape [7; 5]] =
    Ok [float_shape [5]] /\
  TensorInferenceFunction broadcast_def [float_shape [7]; float_shape [7]] =
    Ok [float_shape [1]] /\
  TensorInferenceFunction broadcast_def [float_shape [2; 3; 4]; float_shape [4]] =
    Ok [float_shape [2; 3]].
Proof.
  split; [|split].
  - apply (broadcast_promotion_rule broadcast_def (float_shape [7]) (float_shape [7; 5]));
      try reflexivity; vm_compute; lia.
  - apply (proj1 (broadcast_promotion_rule broadcast_def (float_shape [7]) (float_shape [7])
                    eq_refl eq_refl (le_n 1) (le_n 1) eq_refl eq_refl)).
  - apply (proj1 (broadcast_promotion_rule broadcast_def (float_shape [2; 3; 4]) (float_shape [4])
                    eq_refl eq_refl (le_S _ _ (le_S _ _ (le_n 1))) (le_n 1) eq_refl eq_refl)).
Defined.

(** C7: in broadcast mode the inferred shape starts with the leading
    entries (all but the two matrix axes, after promotion) of the operand
    that has more dimensions, A's on a tie, copied as they are, and one or
    two entries follow. The batch entries of the two operands are not
    combined as NumPy would: A of shape (1, 3, 4) with B of shape (5, 4, 6)
    gives (1, 3, 6) where NumPy's rule gives the batch entry 5. The general
    part is for an operator whose stored flag values are in the range of
    [int], as they are read. *)
Theorem broadcast_batch_is_longer_prefix :
  (forall (def : OperatorDef) (A B : TensorShape),
     flags_fit_int def = true ->
     config_flag def "broadcast" = true ->
     (1 <= rank A)%nat -> (1 <= rank B)%nat ->
     valid_dims (dims A) = true -> valid_dims (dims B) = true ->
     exists (Y : TensorShape) (matrix_part : list Z),
       TensorInferenceFunction def [A; B] = Ok [Y] /\
       dims Y = spec_broadcast_batch (dims A) (dims B) ++ matrix_part /\
       (1 <= length matrix_part <= 2)%nat) /\
  (TensorInferenceFunction broadcast_def [float_shape [1; 3; 4]; float_shape [5; 4; 6]]
     = Ok [float_shape [1; 3; 6]] /\
   numpy_broadcast_batch (batch_dims [1; 3; 4]) (batch_dims [5; 4; 6]) = [5]).
Proof.
  split.
  - intros def A B Hfit Hbc HrA HrB HvA HvB.
    rewrite TensorInference_broadcast by done.
    rewrite infer_broadcast_value by (done || by apply valid_dims_Forall).
    eexists _, _. split; [reflexivity|]. split; [reflexivity|].
    apply spec_broadcast_tail_length.
  - vm_compute. split; reflexivity.
Qed.

Lemma broadcast_batch_is_longer_prefix_witness :
  exists (Y : TensorShape) (matrix_part : list Z),
    TensorInferenceFunction broadcast_def [float_shape [3; 4]; float_shape [5; 2; 4; 6]]
      = Ok [Y] /\
    dims Y = spec_broadcast_batch [3; 4] [5; 2; 4; 6] ++ matrix_part /\
    (1 <= length matrix_part <= 2)%nat.
Proof.
  apply (proj1 broadcast_batch_is_longer_prefix broadcast_def
           (float_shape [3; 4]) (float_shape [5; 2; 4; 6]));
    try reflexivity; vm_compute; lia.
Defined.

(** ** The data type of the output *)

Lemma infer_no_broadcast_data_type (def : OperatorDef) (A B : TensorShape)
    (ys : list TensorShape) :
  infer_no_broadcast def [A; B] = Ok ys ->
  exists y, ys = [y] /\ data_type y = data_type A.
Proof.
  unfold infer_no_broadcast.
  change (vec_get [A; B] 0) with (Ok A). cbn [bind].
  intros H. bind_inv H.
  injection H as <-. eexists. split; reflexivity.
Qed.

Lemma infer_broadcast_data_type (def : OperatorDef) (A B : TensorShape)
    (ys : list TensorShape) :
  infer_broadcast def [A; B] = Ok ys ->
  exists y, ys = [y] /\ data_type y = data_type A.
Proof.
  unfold infer_broadcast.
  change (vec_get [A; B] 0) with (Ok A).
  change (vec_get [A; B] 1) with (Ok B). cbn [bind].
  intros H. bind_inv H.
  destruct (dims_size A =? 1), (dims_size B =? 1);
    bind_inv H; injection H as <-; eexists; split; reflexivity.
Qed.

(** C10: in both modes the data type of the inferred shape is that of the
    first input; the data type of the second input plays no part, so that
    replacing it leaves the result unchanged. *)
Theorem output_data_type_from_A (def : OperatorDef) (A B : TensorShape)
    (ys : list TensorShape) :
  TensorInferenceFunction def [A; B] = Ok ys ->
  (exists y, ys = [y] /\ data_type y = data_type A) /\
  (forall dt : DataType,
     TensorInferenceFunction def [A; CreateTensorShape (dims B) dt] = Ok ys).
Proof.
  intros H. split.
  - unfold TensorInferenceFunction in H.
    destruct (GetSingleArgument def "broadcast" 0) as [broadcast|];
      cbn [bind] in H; [|discriminate].
    destruct (negb (truthy broadcast)).
    + by apply (infer_no_broadcast_data_type def A B).
    + by apply (infer_broadcast_data_type def A B).
  - intros dt. rewrite <- H. reflexivity.
Qed.

Lemma output_data_type_from_A_witness :
  (exists y,
     [CreateTensorShape [5; 3; 6] INT32] = [y] /\ data_type y = INT32) /\
  (forall dt : DataType,
     TensorInferenceFunction broadcast_def
       [CreateTensorShape [3; 4] INT32; CreateTensorShape [5; 4; 6] dt]
     = Ok [CreateTensorShape [5; 3; 6] INT32]).
Proof.
  apply (output_data_type_from_A broadcast_def
           (CreateTensorShape [3; 4] INT32) (CreateTensorShape [5; 4; 6] DOUBLE)).
  vm_compute. reflexivity.
Defined.

(** ** Gradient synthesis *)

(** C2: with broadcast off, for each of the four settings of trans_a and
    trans_b the gradient maker emits exactly two BatchMatMul operators, the
    one producing the gradient of A first and the one producing the gradient
    of B second, with the inputs and transpose flags of the table: (0,0)
    G.B^T and A^T.G, (0,1) G.B and G^T.A, (1,0) B.G^T and A.G, (1,1)
    B^T.G^T and G^T.A^T. A transpose appears only as an argument flag of an
    emitted operator. *)
Theorem gradient_table_realized (GradientName : string -> string)
    (mk : GradientMakerBase) (A B G : string) (gs : list string) :
  input (def_ mk) = [A; B] ->
  g_output_ mk = G :: gs ->
  config_flag (Def mk) "broadcast" = false ->
  let trans_a := config_flag (Def mk) "trans_a" in
  let trans_b := config_flag (Def mk) "trans_b" in
  let scratch := scratch_arg (Def mk) in
  let dA := match trans_a, trans_b with
            | false, false => ([G; B], [MakeArgument "trans_b" 1])
            | false, true  => ([G; B], [])
            | true,  false => ([B; G], [MakeArgument "trans_b" 1])
            | true,  true  => ([B; G], [MakeArgument "trans_a" 1; MakeArgument "trans_b" 1])
            end in
  let dB := match trans_a, trans_b with
            | false, false => ([A; G], [MakeArgument "trans_a" 1])
            | false, true  => ([G; A], [MakeArgument "trans_a" 1])
            | true,  false => ([A; G], [])
            | true,  true  => ([G; A], [MakeArgument "trans_a" 1; MakeArgument "trans_b" 1])
            end in
  GetGradientDefs GradientName mk =
  Ok [CreateOperatorDef "BatchMatMul" "" (fst dA) [GradientName A] (snd dA ++ scratch);
      CreateOperatorDef "BatchMatMul" "" (fst dB) [GradientName B] (snd dB ++ scratch)].
Proof.
  intros Hin Hgo Hbc. cbv zeta.
  rewrite (GetGradientDefs_value GradientName mk A B G gs Hin Hgo Hbc).
  reflexivity.
Qed.

Lemma gradient_table_realized_witness :
  GetGradientDefs suffix_grad (maker_of (def_with [MakeArgument "trans_a" 1])) =
  Ok [CreateOperatorDef "BatchMatMul" "" ["B"; "Y_grad"] ["A_grad"] [MakeArgument "trans_b" 1];
      CreateOperatorDef "BatchMatMul" "" ["A"; "Y_grad"] ["B_grad"] []].
Proof.
  apply (gradient_table_realized suffix_grad
           (maker_of (def_with [MakeArgument "trans_a" 1])) "A" "B" "Y_grad" []);
    reflexivity.
Defined.

(** C3: when the broadcast flag of the forward operator is set, whatever
    its trans_a and trans_b, the gradient maker returns no operators: it
    fails, and for an operator with two inputs the failure is the enforce
    error with the message that the gradient is not supported. *)
Theorem gradient_rejects_broadcast (GradientName : string -> string)
    (mk : GradientMakerBase) :
  config_flag (Def mk) "broadcast" = true ->
  is_ok (GetGradientDefs GradientName mk) = false /\
  (input_size (def_ mk) = 2 ->
   GetGradientDefs GradientName mk = Err (EnforceNotMet unsupported_msg)).
Proof.
  intros Hbc. rewrite GetGradientDefs_broadcast by done. split.
  - by destruct (input_size (def_ mk) =? 2).
  - by intros ->.
Qed.

Lemma gradient_rejects_broadcast_witness :
  is_ok (GetGradientDefs suffix_grad
           (maker_of (def_with [MakeArgument "trans_b" 1; MakeArgument "broadcast" 1])))
  = false /\
  (input_size (def_with [MakeArgument "trans_b" 1; MakeArgument "broadcast" 1]) = 2 ->
   GetGradientDefs suffix_grad
     (maker_of (def_with [MakeArgument "trans_b" 1; MakeArgument "broadcast" 1]))
   = Err (EnforceNotMet unsupported_msg)).
Proof.
  apply (gradient_rejects_broadcast suffix_grad
           (maker_of (def_with [MakeArgument "trans_b" 1; MakeArgument "broadcast" 1]))).
  reflexivity.
Defined.

(** C9 as claimed fails: a forward operator whose use_scratch argument has
    the value 0 yields gradient operators whose use_scratch argument has
    the value 1. *)
Lemma use_scratch_value_not_kept :
  GetArgument (def_with [MakeArgument "use_scratch" 0]) "use_scratch"
  = Ok (MakeArgument "use_scratch" 0) /\
  GetGradientDefs suffix_grad (maker_of (def_with [MakeArgument "use_scratch" 0]))
  = Ok [CreateOperatorDef "BatchMatMul" "" ["Y_grad"; "B"] ["A_grad"]
          [MakeArgument "trans_b" 1; MakeArgument "use_scratch" 1];
        CreateOperatorDef "BatchMatMul" "" ["A"; "Y_grad"] ["B_grad"]
          [MakeArgument "trans_a" 1; MakeArgument "use_scratch" 1]] /\
  MakeArgument "use_scratch" 1 <> MakeArgument "use_scratch" 0.
Proof. vm_compute. repeat split. discriminate. Qed.

Lemma find_arg_scratch_present (flags : list Argument) :
  Forall (fun a => name a <> "use_scratch") flags ->
  find_arg (flags ++ [MakeArgument "use_scratch" 1]) "use_scratch"
  = Some (MakeArgument "use_scratch" 1).
Proof.
  unfold find_arg. induction 1 as [|a flags Ha _ IH]; simpl.
  - reflexivity.
  - destruct (String.eqb_spec (name a) "use_scratch"); [done|]. exact IH.
Qed.

Lemma find_arg_scratch_absent (flags : list Argument) :
  Forall (fun a => name a <> "use_scratch") flags ->
  find_arg (flags ++ []) "use_scratch" = None.
Proof.
  rewrite app_nil_r. unfold find_arg. induction 1 as [|a flags Ha _ IH]; simpl.
  - reflexivity.
  - destruct (String.eqb_spec (name a) "use_scratch"); [done|]. exact IH.
Qed.

Lemma table_flags_not_scratch (ta tb : bool) (A B G : string) :
  Forall (fun a => name a <> "use_scratch") (snd (spec_dA ta tb A B G)) /\
  Forall (fun a => name a <> "use_scratch") (snd (spec_dB ta tb A B G)).
Proof.
  destruct ta, tb; split; simpl; repeat constructor; discriminate.
Qed.

(** C9, amended: with broadcast off, if the forward operator has a
    use_scratch argument, whatever its value, each of the two emitted
    operators carries the argument use_scratch with the value 1; if it has
    none, neither emitted operator carries one. *)
Theorem use_scratch_propagated (GradientName : string -> string)
    (mk : GradientMakerBase) (A B G : string) (gs : list string) :
  input (def_ mk) = [A; B] ->
  g_output_ mk = G :: gs ->
  config_flag (Def mk) "broadcast" = false ->
  exists op1 op2,
    GetGradientDefs GradientName mk = Ok [op1; op2] /\
    (HasArgument (Def mk) "use_scratch" = true ->
     find_arg (arg op1) "use_scratch" = Some (MakeArgument "use_scratch" 1) /\
     find_arg (arg op2) "use_scratch" = Some (MakeArgument "use_scratch" 1)) /\
    (HasArgument (Def mk) "use_scratch" = false ->
     find_arg (arg op1) "use_scratch" = None /\
     find_arg (arg op2) "use_scratch" = None).
Proof.
  intros Hin Hgo Hbc.
  rewrite (GetGradientDefs_value GradientName mk A B G gs Hin Hgo Hbc).
  eexists _, _. split; [reflexivity|].
  destruct (table_flags_not_scratch (config_flag (Def mk) "trans_a")
              (config_flag (Def mk) "trans_b") A B G) as [HdA HdB].
  unfold emitted, scratch_arg. cbn [arg].
  split; intros ->.
  - split; by apply find_arg_scratch_present.
  - split; by apply find_arg_scratch_absent.
Qed.

Lemma use_scratch_propagated_witness :
  exists op1 op2,
    GetGradientDefs suffix_grad (maker_of (def_with [MakeArgument "use_scratch" 0]))
      = Ok [op1; op2] /\
    (HasArgument (def_with [MakeArgument "use_scratch" 0]) "use_scratch" = true ->
     find_arg (arg op1) "use_scratch" = Some (MakeArgument "use_scratch" 1) /\
     find_arg (arg op2) "use_scratch" = Some (MakeArgument "use_scratch" 1)) /\
    (HasArgument (def_with [MakeArgument "use_scratch" 0]) "use_scratch" = false ->
     find_arg (arg op1) "use_scratch" = None /\
     find_arg (arg op2) "use_scratch" = None).
Proof.
  apply (use_scratch_propagated suffix_grad
           (maker_of (def_with [MakeArgument "use_scratch" 0])) "A" "B" "Y_grad" []);
    reflexivity.
Defined.

(** * Further properties of the two functions *)

(** ** The copy loops *)

(** X1: each copy loop of the broadcast branch, started on a zero-filled
    vector of the shape's rank, ends without an out-of-range access and
    leaves exactly the dimensions of the shape in the vector. *)
Theorem copy_loop_copies (t : TensorShape) :
  copy_dims (Z.to_nat (dims_size t)) 0 (dims t)
            (replicate (Z.to_nat (dims_size t)) 0)
  = Ok (dims t).
Proof.
  unfold dims_size. rewrite Nat2Z.id.
  exact (copy_dims_from (dims t) []).
Qed.

(** ** Shape inference without broadcasting *)

Lemma to_int_range (z : Z) : is_int (to_int z).
Proof.
  unfold is_int, to_int, wrap_signed.
  change (2 ^ (32 - 1)) with (2 ^ 31).
  pose proof (Z.mod_pos_bound (z + 2 ^ 31) (2 ^ 32)). lia.
Qed.

(** X2: whenever shape inference succeeds with broadcast off, whatever the
    rank of B, A has rank at least 2 and the result is a single shape with
    A's data type, made of A's leading entries followed by two entries that
    both lie in the range of [int]. *)
Theorem no_broadcast_success_shape (def : OperatorDef) (A B : TensorShape)
    (ys : list TensorShape) :
  config_flag def "broadcast" = false ->
  TensorInferenceFunction def [A; B] = Ok ys ->
  (2 <= rank A)%nat /\
  exists m n : Z,
    ys = [CreateTensorShape (batch_dims (dims A) ++ [m; n]) (data_type A)] /\
    is_int m /\ is_int n.
Proof.
  intros Hbc. rewrite TensorInference_no_broadcast by done. intros H.
  destruct (Nat.lt_ge_cases (rank A) 2) as [Hlt | Hge].
  { rewrite infer_no_broadcast_low_rank in H by done. discriminate. }
  split; [done|].
  destruct (two_last_inv (dims A) Hge) as (ba & xa & ya & HA).
  rewrite (infer_no_broadcast_steps def A B ba xa ya HA) in H.
  bind_inv H.
  injection H as <-. rewrite HA, batch_dims_app.
  eexists _, _. split; [reflexivity|]. split; apply to_int_range.
Qed.

Lemma no_broadcast_success_shape_witness :
  (2 <= rank (float_shape [2; 3; 4]%Z))%nat /\
  exists m n : Z,
    [float_shape [2; 3; 9]] =
    [CreateTensorShape (batch_dims [2; 3; 4] ++ [m; n]) FLOAT] /\
    is_int m /\ is_int n.
Proof.
  apply (no_broadcast_success_shape (def_with [MakeArgument "trans_b" 1])
           (float_shape [2; 3; 4]) (float_shape [4; 9])).
  - reflexivity.
  - vm_compute. reflexivity.
Defined.

(** X3: with broadcast off a single entry of B is read, the one at the
    position counted from A's rank (rank(A) - 1, or rank(A) - 2 with
    trans_b). Two second inputs that both hold the same entry there give
    the same result, whatever their ranks, other entries and data types;
    this for an operator whose stored flag values are in the range of
    [int]. *)
Theorem no_broadcast_reads_one_entry_of_B (def : OperatorDef)
    (A B B' : TensorShape) (n : Z) :
  config_flag def "broadcast" = false ->
  flags_fit_int def = true ->
  dims B !! (rank A - (if config_flag def "trans_b" then 2 else 1))%nat = Some n ->
  dims B' !! (rank A - (if config_flag def "trans_b" then 2 else 1))%nat = Some n ->
  TensorInferenceFunction def [A; B] = TensorInferenceFunction def [A; B'].
Proof.
  intros Hbc Hfit Hn Hn'. rewrite !TensorInference_no_broadcast by done.
  destruct (Nat.lt_ge_cases (rank A) 2) as [Hlt | Hge].
  { by rewrite !infer_no_broadcast_low_rank. }
  destruct (two_last_inv (dims A) Hge) as (ba & xa & ya & HA).
  rewrite !(infer_no_broadcast_reads def _ _ ba xa ya Hfit HA).
  apply vec_get_lookup in Hn, Hn'. unfold rank in *.
  replace (Z.of_nat (length (dims A) - (if config_flag def "trans_b" then 2 else 1)))
    with (dims_size A - (if config_flag def "trans_b" then 2 else 1)) in Hn, Hn'
    by (unfold dims_size; destruct (config_flag def "trans_b"); lia).
  by rewrite Hn, Hn'.
Qed.

Lemma no_broadcast_reads_one_entry_of_B_witness :
  TensorInferenceFunction plain_def
    [float_shape [2; 3; 4]; float_shape [2; 4; 5]] =
  TensorInferenceFunction plain_def
    [float_shape [2; 3; 4]; CreateTensorShape [7; 7; 5; 1; 1] INT32].
Proof.
  apply (no_broadcast_reads_one_entry_of_B plain_def (float_shape [2; 3; 4])
           (float_shape [2; 4; 5]) (CreateTensorShape [7; 7; 5; 1; 1] INT32) 5);
    reflexivity.
Defined.

(** ** The two modes side by side *)

(** X4: for A and B of the same rank, at least 2, whose output dimensions
    M and N lie in the range of [int], the broadcast flag makes no
    difference: two operator definitions with the same trans_a and trans_b,
    one with broadcast off and one with broadcast on, both with stored flag
    values in the range of [int], infer the same shape. *)
Theorem broadcast_flag_irrelevant_same_rank (def def' : OperatorDef)
    (A B : TensorShape) :
  flags_fit_int def = true -> flags_fit_int def' = true ->
  config_flag def "broadcast" = false ->
  config_flag def' "broadcast" = true ->
  config_flag def "trans_a" = config_flag def' "trans_a" ->
  config_flag def "trans_b" = config_flag def' "trans_b" ->
  (2 <= rank A)%nat -> rank A = rank B ->
  valid_dims (dims A) = true -> valid_dims (dims B) = true ->
  is_intb (spec_M (config_flag def "trans_a") (dims A)) = true ->
  is_intb (spec_N (config_flag def "trans_b") (dims B)) = true ->
  TensorInferenceFunction def [A; B] = TensorInferenceFunction def' [A; B].
Proof.
  intros Hfit Hfit' Hoff Hon Hta Htb H2 Heq HvA HvB HM HN.
  rewrite (TensorInference_no_broadcast def) by done.
  rewrite (TensorInference_broadcast def') by done.
  rewrite infer_no_broadcast_same_rank by done.
  rewrite infer_broadcast_value;
    [| done | unfold rank in *; lia | unfold rank in *; lia
     | by apply valid_dims_Forall | by apply valid_dims_Forall].
  rewrite broadcast_same_rank_batch, broadcast_same_rank_tail by done.
  rewrite !to_int_id by (by apply is_intb_spec).
  by rewrite Hta, Htb.
Qed.

Lemma broadcast_flag_irrelevant_same_rank_witness :
  TensorInferenceFunction (def_with [MakeArgument "trans_a" 1])
    [float_shape [2; 4; 3]; float_shape [2; 4; 5]] =
  TensorInferenceFunction
    (def_with [MakeArgument "broadcast" 1; MakeArgument "trans_a" 1])
    [float_shape [2; 4; 3]; float_shape [2; 4; 5]].
Proof.
  apply (broadcast_flag_irrelevant_same_rank
           (def_with [MakeArgument "trans_a" 1])
           (def_with [MakeArgument "broadcast" 1; MakeArgument "trans_a" 1])
           (float_shape [2; 4; 3]) (float_shape [2; 4; 5]));
    try reflexivity; vm_compute; lia.
Defined.

(** ** Shape inference with broadcasting *)

(** X5: in broadcast mode a 1-D first operand contributes nothing but its
    data type: neither its length nor trans_a changes the inferred shape.
    Likewise neither the length of a 1-D second operand, nor its data type,
    nor trans_b changes it. The operators compared have stored flag values
    in the range of [int]. *)
Theorem broadcast_1D_operand_ignored (def def' : OperatorDef)
    (A A' B B' : TensorShape) :
  flags_fit_int def = true -> flags_fit_int def' = true ->
  config_flag def "broadcast" = true ->
  config_flag def' "broadcast" = true ->
  valid_dims (dims A) = true -> valid_dims (dims A') = true ->
  valid_dims (dims B) = true -> valid_dims (dims B') = true ->
  (rank A = 1%nat -> rank A' = 1%nat -> data_type A = data_type A' ->
   (1 <= rank B)%nat ->
   config_flag def "trans_b" = config_flag def' "trans_b" ->
   TensorInferenceFunction def [A; B] = TensorInferenceFunction def' [A'; B]) /\
  (rank B = 1%nat -> rank B' = 1%nat ->
   (1 <= rank A)%nat ->
   config_flag def "trans_a" = config_flag def' "trans_a" ->
   TensorInferenceFunction def [A; B] = TensorInferenceFunction def' [A; B']).
Proof.
  intros Hfit Hfit' Hon Hon' HvA HvA' HvB HvB'.
  rewrite !(TensorInference_broadcast def) by done.
  rewrite !(TensorInference_broadcast def') by done.
  unfold rank. split.
  - intros HA HA' Hdt HrB Htb.
    rewrite !infer_broadcast_value
      by (first [done | unfold rank; lia | by apply valid_dims_Forall]).
    rewrite Hdt, Htb.
    destruct (dims A) as [|k [|? ?]]; try discriminate.
    destruct (dims A') as [|k' [|? ?]]; try discriminate.
    reflexivity.
  - intros HB HB' HrA Hta.
    rewrite !infer_broadcast_value
      by (first [done | unfold rank; lia | by apply valid_dims_Forall]).
    rewrite Hta.
    destruct (dims B) as [|k [|? ?]]; try discriminate.
    destruct (dims B') as [|k' [|? ?]]; try discriminate.
    reflexivity.
Qed.

Lemma broadcast_1D_operand_ignored_witness :
  TensorInferenceFunction broadcast_def [float_shape [7]; float_shape [2; 7; 5]] =
  TensorInferenceFunction
    (def_with [MakeArgument "trans_a" 1; MakeArgument "broadcast" 1])
    [float_shape [9]; float_shape [2; 7; 5]].
Proof.
  apply (proj1 (broadcast_1D_operand_ignored broadcast_def
           (def_with [MakeArgument "trans_a" 1; MakeArgument "broadcast" 1])
           (float_shape [7]) (float_shape [9])
           (float_shape [2; 7; 5]) (float_shape [2; 7; 5])
           eq_refl eq_refl eq_refl eq_refl eq_refl eq_refl eq_refl eq_refl));
    try reflexivity; vm_compute; lia.
Defined.

(** X6: in broadcast mode, for operands of rank at least 1, the rank of the
    inferred shape is 1 when both operands are 1-D, one less than the rank
    of the other operand when exactly one is 1-D, and the larger of the two
    ranks otherwise; this for an operator whose stored flag values are in
    the range of [int]. *)
Theorem broadcast_output_rank (def : OperatorDef) (A B : TensorShape) :
  flags_fit_int def = true ->
  config_flag def "broadcast" = true ->
  (1 <= rank A)%nat -> (1 <= rank B)%nat ->
  valid_dims (dims A) = true -> valid_dims (dims B) = true ->
  exists Y : TensorShape,
    TensorInferenceFunction def [A; B] = Ok [Y] /\
    rank Y =
      if is_1D (dims A) && is_1D (dims B) then 1%nat
      else if is_1D (dims A) then (rank B - 1)%nat
      else if is_1D (dims B) then (rank A - 1)%nat
      else Nat.max (rank A) (rank B).
Proof.
  intros Hfit Hon HrA HrB HvA HvB.
  rewrite TensorInference_broadcast by done.
  rewrite infer_broadcast_value by (done || by apply valid_dims_Forall).
  eexists. split; [reflexivity|].
  unfold rank in *. cbn [dims].
  unfold spec_broadcast_batch, spec_broadcast_tail.
  destruct (promote_A_cases _ HrA) as (ba & xa & ya & HpA & HcA).
  destruct (promote_B_cases _ HrB) as (bb & xb & yb & HpB & HcB).
  rewrite HpA, HpB, !batch_dims_app.
  destruct HcA as [(H1A & HA & -> & ->) | (H1A & HA)],
           HcB as [(H1B & HB & -> & ->) | (H1B & HB)];
    rewrite ?H1A, ?H1B, ?HA, ?HB; cbn [andb];
    rewrite ?length_app; cbn [length];
    match goal with
    | |- context [(?x <=? ?y)%nat] => destruct (Nat.leb_spec x y)
    end; rewrite ?length_app; cbn [length app]; lia.
Qed.

Lemma broadcast_output_rank_witness :
  exists Y : TensorShape,
    TensorInferenceFunction broadcast_def [float_shape [4]; float_shape [5; 2; 4; 6]]
      = Ok [Y] /\
    rank Y = 3%nat.
Proof.
  apply (broadcast_output_rank broadcast_def
           (float_shape [4]) (float_shape [5; 2; 4; 6]));
    try reflexivity; vm_compute; lia.
Defined.

(** ** Gradient synthesis *)

Lemma input_size_two (def : OperatorDef) :
  input_size def = 2 -> exists A B, input def = [A; B].
Proof.
  unfold input_size. intros H.
  destruct (input def) as [|A [|B [|? ?]]]; simpl in H; try lia.
  by exists A, B.
Qed.

(** What a successful run tells about the maker. *)
Lemma GetGradientDefs_ok_inv (GradientName : string -> string)
    (mk : GradientMakerBase) (ops : list OperatorDef) :
  GetGradientDefs GradientName mk = Ok ops ->
  exists A B G gs,
    input (def_ mk) = [A; B] /\ g_output_ mk = G :: gs /\
    config_flag (Def mk) "broadcast" = false.
Proof.
  unfold GetGradientDefs. rewrite !flag_of_config. intros H.
  destruct (Z.eqb_spec (input_size (def_ mk)) 2) as [H2 | H2];
    cbn [CAFFE_ENFORCE bind] in H; [|discriminate].
  destruct (config_flag (Def mk) "broadcast") eqn:Hbc;
    cbn [CAFFE_ENFORCE bind negb] in H; [discriminate|].
  destruct (input_size_two _ H2) as (A & B & Hin).
  destruct (g_output_ mk) as [|G gs] eqn:Hgo.
  - exfalso. unfold I, GO, GI in H. rewrite Hin, Hgo in H.
    change (vec_get [A; B] 0) with (Ok A) in H.
    change (vec_get [A; B] 1) with (Ok B) in H.
    change (vec_get (@nil string) 0) with (@Err string OutOfRange) in H.
    destruct (HasArgument (Def mk) "use_scratch"),
      (config_flag (Def mk) "trans_a"), (config_flag (Def mk) "trans_b");
      cbn [bind] in H; discriminate.
  - by exists A, B, G, gs.
Qed.

(** X7: the gradient maker returns operators exactly when the forward
    operator has two inputs, its broadcast flag is off and the gradient of
    its output is available. *)
Theorem gradient_succeeds_iff (GradientName : string -> string)
    (mk : GradientMakerBase) :
  is_ok (GetGradientDefs GradientName mk) = true <->
  input_size (def_ mk) = 2 /\
  config_flag (Def mk) "broadcast" = false /\
  g_output_ mk <> [].
Proof.
  split.
  - destruct (GetGradientDefs GradientName mk) as [ops|] eqn:H; [|discriminate].
    intros _. apply GetGradientDefs_ok_inv in H as (A & B & G & gs & Hin & Hgo & Hbc).
    split; [|split; [done|]].
    + unfold input_size. by rewrite Hin.
    + by rewrite Hgo.
  - intros (H2 & Hbc & Hgo).
    destruct (input_size_two _ H2) as (A & B & Hin).
    destruct (g_output_ mk) as [|G gs] eqn:Hgo'; [done|].
    by rewrite (GetGradientDefs_value GradientName mk A B G gs Hin Hgo' Hbc).
Qed.

Lemma gradient_succeeds_iff_witness :
  is_ok (GetGradientDefs suffix_grad (maker_of (def_with [MakeArgument "trans_b" 1])))
  = true.
Proof.
  apply (proj2 (gradient_succeeds_iff suffix_grad
                  (maker_of (def_with [MakeArgument "trans_b" 1])))).
  split; [reflexivity|]. split; [reflexivity|]. discriminate.
Defined.

(** X8: the result of the gradient maker depends on the forward operator
    only through its input names, the truth values of broadcast, trans_a
    and trans_b, and the presence of use_scratch, and on the output
    gradients only through the first one. The operator's type, name,
    outputs, other arguments and the values of the arguments beyond that
    are not looked at. *)
Theorem gradient_depends_on_config_only (GradientName : string -> string)
    (mk mk' : GradientMakerBase) :
  input (def_ mk) = input (def_ mk') ->
  g_output_ mk !! 0%nat = g_output_ mk' !! 0%nat ->
  config_flag (Def mk) "broadcast" = config_flag (Def mk') "broadcast" ->
  config_flag (Def mk) "trans_a" = config_flag (Def mk') "trans_a" ->
  config_flag (Def mk) "trans_b" = config_flag (Def mk') "trans_b" ->
  HasArgument (Def mk) "use_scratch" = HasArgument (Def mk') "use_scratch" ->
  GetGradientDefs GradientName mk = GetGradientDefs GradientName mk'.
Proof.
  intros Hin Hgo Hbc Hta Htb Hsc.
  unfold GetGradientDefs, input_size, I, GO, GI, vec_get.
  rewrite !flag_of_config.
  change (Z.to_nat 0) with 0%nat.
  rewrite Hin, Hgo, Hbc, Hta, Htb, Hsc. reflexivity.
Qed.

Lemma gradient_depends_on_config_only_witness :
  GetGradientDefs suffix_grad
    (maker_of (def_with [MakeArgument "trans_a" 1; MakeArgument "use_scratch" 0])) =
  GetGradientDefs suffix_grad
    {| def_ := CreateOperatorDef "MatMul" "fc1" ["A"; "B"] ["Z"; "W"]
                 [MakeArgument "use_scratch" 3; MakeArgument "axis" 2;
                  MakeArgument "trans_a" 7];
       g_output_ := ["Y_grad"; "W_grad"] |}.
Proof.
  apply (gradient_depends_on_config_only suffix_grad
           (maker_of (def_with [MakeArgument "trans_a" 1; MakeArgument "use_scratch" 0]))
           {| def_ := CreateOperatorDef "MatMul" "fc1" ["A"; "B"] ["Z"; "W"]
                        [MakeArgument "use_scratch" 3; MakeArgument "axis" 2;
                         MakeArgument "trans_a" 7];
              g_output_ := ["Y_grad"; "W_grad"] |});
    reflexivity.
Defined.

Lemma emitted_dA_inputs (ta tb : bool) (A B G : string) :
  exists x y, fst (spec_dA ta tb A B G) = [x; y].
Proof. destruct ta, tb; simpl; eauto. Qed.

Lemma emitted_dB_inputs (ta tb : bool) (A B G : string) :
  exists x y, fst (spec_dB ta tb A B G) = [x; y].
Proof. destruct ta, tb; simpl; eauto. Qed.

(** The flags that shape inference reads back from an emitted operator. *)
Lemma emitted_dA_flags (def : OperatorDef) (ta tb : bool) (A B G out : string) :
  let op := emitted (spec_dA ta tb A B G) out (scratch_arg def) in
  config_flag op "broadcast" = false /\
  config_flag op "trans_a" = (ta && tb) /\
  config_flag op "trans_b" = (ta || negb tb).
Proof.
  unfold scratch_arg.
  destruct (HasArgument def "use_scratch"), ta, tb; repeat split.
Qed.

Lemma emitted_dB_flags (def : OperatorDef) (ta tb : bool) (A B G out : string) :
  let op := emitted (spec_dB ta tb A B G) out (scratch_arg def) in
  config_flag op "broadcast" = false /\
  config_flag op "trans_a" = (negb ta || tb) /\
  config_flag op "trans_b" = (ta && tb).
Proof.
  unfold scratch_arg.
  destruct (HasArgument def "use_scratch"), ta, tb; repeat split.
Qed.

Lemma emitted_wellformed (entry : list string * list Argument) (out : string)
    (def : OperatorDef) :
  (exists x y, fst entry = [x; y]) ->
  Forall (fun a => i a = 1 /\ (name a = "trans_a" \/ name a = "trans_b" \/
                               name a = "use_scratch")) (snd entry) ->
  let op := emitted entry out (scratch_arg def) in
  type op = "BatchMatMul" /\ schema_counts op /\ only_flag_args op.
Proof.
  intros (x & y & Hxy) Hflags. unfold emitted, schema_counts, only_flag_args.
  cbn [type input output arg]. rewrite Hxy.
  split; [done|]. split; [done|].
  apply Forall_app. split; [done|].
  unfold scratch_arg. destruct (HasArgument def "use_scratch"); [|constructor].
  constructor; [|constructor]. cbn. auto.
Qed.

Lemma table_flags_wellformed (ta tb : bool) (A B G : string) :
  Forall (fun a => i a = 1 /\ (name a = "trans_a" \/ name a = "trans_b" \/
                               name a = "use_scratch")) (snd (spec_dA ta tb A B G)) /\
  Forall (fun a => i a = 1 /\ (name a = "trans_a" \/ name a = "trans_b" \/
                               name a = "use_scratch")) (snd (spec_dB ta tb A B G)).
Proof.
  destruct ta, tb; split; simpl;
    repeat match goal with
      | |- Forall _ [] => constructor
      | |- Forall _ (_ :: _) => constructor; [split; [reflexivity | cbn; auto] |]
      end.
Qed.

(** X9: whenever the gradient maker succeeds it returns exactly two
    operators, each of type BatchMatMul with two inputs and one output as
    the schema asks, whose arguments are all among trans_a, trans_b and
    use_scratch with the value 1; no other argument of the forward operator
    is carried over, and none of them has a broadcast argument. *)
Theorem emitted_operators_wellformed (GradientName : string -> string)
    (mk : GradientMakerBase) (ops : list OperatorDef) :
  GetGradientDefs GradientName mk = Ok ops ->
  length ops = 2%nat /\
  Forall (fun op => type op = "BatchMatMul" /\ schema_counts op /\
                    only_flag_args op /\ HasArgument op "broadcast" = false) ops.
Proof.
  intros H.
  destruct (GetGradientDefs_ok_inv _ _ _ H) as (A & B & G & gs & Hin & Hgo & Hbc).
  rewrite (GetGradientDefs_value GradientName mk A B G gs Hin Hgo Hbc) in H.
  injection H as <-. split; [reflexivity|].
  destruct (table_flags_wellformed (config_flag (Def mk) "trans_a")
              (config_flag (Def mk) "trans_b") A B G) as [HfA HfB].
  repeat constructor;
    try (apply emitted_wellformed;
         [apply emitted_dA_inputs || apply emitted_dB_inputs | assumption]).
  - unfold scratch_arg.
    by destruct (HasArgument (Def mk) "use_scratch"),
      (config_flag (Def mk) "trans_a"), (config_flag (Def mk) "trans_b").
  - unfold scratch_arg.
    by destruct (HasArgument (Def mk) "use_scratch"),
      (config_flag (Def mk) "trans_a"), (config_flag (Def mk) "trans_b").
Qed.

Lemma emitted_operators_wellformed_witness :
  length [CreateOperatorDef "BatchMatMul" "" ["B"; "Y_grad"] ["A_grad"]
            [MakeArgument "trans_b" 1; MakeArgument "use_scratch" 1];
          CreateOperatorDef "BatchMatMul" "" ["A"; "Y_grad"] ["B_grad"]
            [MakeArgument "use_scratch" 1]] = 2%nat /\
  Forall (fun op => type op = "BatchMatMul" /\ schema_counts op /\
                    only_flag_args op /\ HasArgument op "broadcast" = false)
    [CreateOperatorDef "BatchMatMul" "" ["B"; "Y_grad"] ["A_grad"]
       [MakeArgument "trans_b" 1; MakeArgument "use_scratch" 1];
     CreateOperatorDef "BatchMatMul" "" ["A"; "Y_grad"] ["B_grad"]
       [MakeArgument "use_scratch" 1]].
Proof.
  apply (emitted_operators_wellformed suffix_grad
           (maker_of (def_with [MakeArgument "axis" 2; MakeArgument "trans_a" 5;
                                MakeArgument "use_scratch" 0]))).
  reflexivity.
Defined.

(** X10: the operators returned by the gradient maker can themselves be
    differentiated: the maker applied to any of them, given the gradient of
    its output, succeeds again. *)
Theorem emitted_operators_differentiable (GradientName GradientName' : string -> string)
    (mk : GradientMakerBase) (ops : list OperatorDef) (op : OperatorDef)
    (g : string) (gs : list string) :
  GetGradientDefs GradientName mk = Ok ops ->
  In op ops ->
  is_ok (GetGradientDefs GradientName' {| def_ := op; g_output_ := g :: gs |}) = true.
Proof.
  intros H Hop.
  destruct (GetGradientDefs_ok_inv _ _ _ H) as (A & B & G & gs0 & Hin & Hgo & Hbc).
  rewrite (GetGradientDefs_value GradientName mk A B G gs0 Hin Hgo Hbc) in H.
  injection H as <-.
  destruct Hop as [<- | [<- | []]].
  - destruct (emitted_dA_inputs (config_flag (Def mk) "trans_a")
                (config_flag (Def mk) "trans_b") A B G) as (x & y & Hxy).
    destruct (emitted_dA_flags (Def mk) (config_flag (Def mk) "trans_a")
                (config_flag (Def mk) "trans_b") A B G (GradientName A)) as [Hb _].
    erewrite GetGradientDefs_value; [reflexivity | exact Hxy | reflexivity | exact Hb].
  - destruct (emitted_dB_inputs (config_flag (Def mk) "trans_a")
                (config_flag (Def mk) "trans_b") A B G) as (x & y & Hxy).
    destruct (emitted_dB_flags (Def mk) (config_flag (Def mk) "trans_a")
                (config_flag (Def mk) "trans_b") A B G (GradientName B)) as [Hb _].
    erewrite GetGradientDefs_value; [reflexivity | exact Hxy | reflexivity | exact Hb].
Qed.

Lemma emitted_operators_differentiable_witness :
  is_ok (GetGradientDefs suffix_grad
           {| def_ := CreateOperatorDef "BatchMatMul" "" ["A"; "Y_grad"] ["B_grad"]
                        [MakeArgument "trans_a" 1];
              g_output_ := ["B_grad_grad"] |}) = true.
Proof.
  apply (emitted_operators_differentiable suffix_grad suffix_grad
           (maker_of plain_def)
           [CreateOperatorDef "BatchMatMul" "" ["Y_grad"; "B"] ["A_grad"]
              [MakeArgument "trans_b" 1];
            CreateOperatorDef "BatchMatMul" "" ["A"; "Y_grad"] ["B_grad"]
              [MakeArgument "trans_a" 1]]).
  - reflexivity.
  - simpl. right. left. reflexivity.
Defined.

(** ** Gradient synthesis and shape inference together *)

(** Shape inference with broadcast off on two shapes with batch parts of
    the same length, the output entries being in the range of [int]. *)
Lemma TensorInference_matrix (def : OperatorDef) (ta tb : bool)
    (in_ : list TensorShape) (A B : TensorShape)
    (b b' : list Z) (xa ya xb yb : Z) :
  flags_fit_int def = true ->
  config_flag def "broadcast" = false ->
  config_flag def "trans_a" = ta ->
  config_flag def "trans_b" = tb ->
  in_ = [A; B] ->
  dims A = b ++ [xa; ya] -> dims B = b' ++ [xb; yb] -> length b = length b' ->
  is_int (if ta then ya else xa) -> is_int (if tb then xb else yb) ->
  exists Y : TensorShape,
    TensorInferenceFunction def in_ = Ok [Y] /\
    dims Y = b ++ [if ta then ya else xa; if tb then xb else yb].
Proof.
  intros Hfit Hbc Hta Htb -> HA HB Hlen HM HN.
  rewrite TensorInference_no_broadcast by done.
  assert (Hn : dims_size A = Z.of_nat (length b') + 2).
  { unfold dims_size. rewrite HA, length_two_last. lia. }
  rewrite (infer_no_broadcast_value def A B [] b xa ya xb yb Hfit HA).
  - rewrite Hta, Htb, !to_int_id by done. eexists. split; reflexivity.
  - rewrite HB. by apply vec_get_second_to_last_at.
  - rewrite HB. by apply vec_get_last_at.
Qed.

Lemma emitted_flags_fit (def : OperatorDef) (ta tb : bool) (A B G out : string) :
  flags_fit_int (emitted (spec_dA ta tb A B G) out (scratch_arg def)) = true /\
  flags_fit_int (emitted (spec_dB ta tb A B G) out (scratch_arg def)) = true.
Proof.
  unfold scratch_arg.
  destruct (HasArgument def "use_scratch"), ta, tb; split; reflexivity.
Qed.

(** X11: the emitted gradient operators fit the forward operator. Let the
    forward operator have broadcast off, stored flag values in the range of
    [int], and inputs A and B with a common
    batch part, A holding (M, K) (or (K, M) with trans_a) and B holding
    (K, N) (or (N, K) with trans_b), with M, K and N in the range of
    [int]. Then shape inference on the forward operator gives the batch
    part followed by (M, N); and if the gradient G of the output has that
    shape, shape inference on the first emitted operator, applied to the
    shapes of its inputs, gives the dimensions of A, and on the second the
    dimensions of B, for all four settings of trans_a and trans_b. *)
Theorem gradient_shapes_match (GradientName : string -> string)
    (env : string -> TensorShape) (mk : GradientMakerBase)
    (A B G : string) (gs : list string) (b : list Z) (M K N : Z) :
  input (def_ mk) = [A; B] ->
  g_output_ mk = G :: gs ->
  flags_fit_int (Def mk) = true ->
  config_flag (Def mk) "broadcast" = false ->
  dims (env A) = b ++ (if config_flag (Def mk) "trans_a" then [K; M] else [M; K]) ->
  dims (env B) = b ++ (if config_flag (Def mk) "trans_b" then [N; K] else [K; N]) ->
  dims (env G) = b ++ [M; N] ->
  is_intb M = true -> is_intb K = true -> is_intb N = true ->
  (exists Y, TensorInferenceFunction (Def mk) [env A; env B] = Ok [Y] /\
             dims Y = dims (env G)) /\
  exists op1 op2,
    GetGradientDefs GradientName mk = Ok [op1; op2] /\
    (exists Y1, TensorInferenceFunction op1 (map env (input op1)) = Ok [Y1] /\
                dims Y1 = dims (env A)) /\
    (exists Y2, TensorInferenceFunction op2 (map env (input op2)) = Ok [Y2] /\
                dims Y2 = dims (env B)).
Proof.
  intros Hin Hgo Hfit Hbc HA HB HG HM HK HN.
  apply is_intb_spec in HM, HK, HN.
  destruct (emitted_flags_fit (Def mk) (config_flag (Def mk) "trans_a")
              (config_flag (Def mk) "trans_b") A B G (GradientName A))
    as [HfA _].
  destruct (emitted_flags_fit (Def mk) (config_flag (Def mk) "trans_a")
              (config_flag (Def mk) "trans_b") A B G (GradientName B))
    as [_ HfB].
  rewrite (GetGradientDefs_value GradientName mk A B G gs Hin Hgo Hbc).
  destruct (emitted_dA_flags (Def mk) (config_flag (Def mk) "trans_a")
              (config_flag (Def mk) "trans_b") A B G (GradientName A))
    as (HbA & HtaA & HtbA).
  destruct (emitted_dB_flags (Def mk) (config_flag (Def mk) "trans_a")
              (config_flag (Def mk) "trans_b") A B G (GradientName B))
    as (HbB & HtaB & HtbB).
  rewrite HA, HB, HG.
  split; [|eexists _, _; split; [reflexivity|]; split].
  - destruct (config_flag (Def mk) "trans_a") eqn:Eta,
             (config_flag (Def mk) "trans_b") eqn:Etb.
    + apply (TensorInference_matrix (Def mk) true true _ (env A) (env B) b b K M N K);
        first [exact Hfit | exact HfA | exact HfB | exact Hbc | exact Eta | exact Etb | exact HbA | exact HtaA | exact HtbA
              | exact HbB | exact HtaB | exact HtbB | reflexivity
              | exact HA | exact HB | exact HG | assumption].
    + apply (TensorInference_matrix (Def mk) true false _ (env A) (env B) b b K M K N);
        first [exact Hfit | exact HfA | exact HfB | exact Hbc | exact Eta | exact Etb | exact HbA | exact HtaA | exact HtbA
              | exact HbB | exact HtaB | exact HtbB | reflexivity
              | exact HA | exact HB | exact HG | assumption].
    + apply (TensorInference_matrix (Def mk) false true _ (env A) (env B) b b M K N K);
        first [exact Hfit | exact HfA | exact HfB | exact Hbc | exact Eta | exact Etb | exact HbA | exact HtaA | exact HtbA
              | exact HbB | exact HtaB | exact HtbB | reflexivity
              | exact HA | exact HB | exact HG | assumption].
    + apply (TensorInference_matrix (Def mk) false false _ (env A) (env B) b b M K K N);
        first [exact Hfit | exact HfA | exact HfB | exact Hbc | exact Eta | exact Etb | exact HbA | exact HtaA | exact HtbA
              | exact HbB | exact HtaB | exact HtbB | reflexivity
              | exact HA | exact HB | exact HG | assumption].
  - destruct (config_flag (Def mk) "trans_a") eqn:Eta,
             (config_flag (Def mk) "trans_b") eqn:Etb.
    + (* B^T . G^T *) apply (TensorInference_matrix _ true true _ (env B) (env G) b b N K M N);
        first [exact Hfit | exact HfA | exact HfB | exact Hbc | exact Eta | exact Etb | exact HbA | exact HtaA | exact HtbA
              | exact HbB | exact HtaB | exact HtbB | reflexivity
              | exact HA | exact HB | exact HG | assumption].
    + (* B . G^T *) apply (TensorInference_matrix _ false true _ (env B) (env G) b b K N M N);
        first [exact Hfit | exact HfA | exact HfB | exact Hbc | exact Eta | exact Etb | exact HbA | exact HtaA | exact HtbA
              | exact HbB | exact HtaB | exact HtbB | reflexivity
              | exact HA | exact HB | exact HG | assumption].
    + (* G . B *) apply (TensorInference_matrix _ false false _ (env G) (env B) b b M N N K);
        first [exact Hfit | exact HfA | exact HfB | exact Hbc | exact Eta | exact Etb | exact HbA | exact HtaA | exact HtbA
              | exact HbB | exact HtaB | exact HtbB | reflexivity
              | exact HA | exact HB | exact HG | assumption].
    + (* G . B^T *) apply (TensorInference_matrix _ false true _ (env G) (env B) b b M N K N);
        first [exact Hfit | exact HfA | exact HfB | exact Hbc | exact Eta | exact Etb | exact HbA | exact HtaA | exact HtbA
              | exact HbB | exact HtaB | exact HtbB | reflexivity
              | exact HA | exact HB | exact HG | assumption].
  - destruct (config_flag (Def mk) "trans_a") eqn:Eta,
             (config_flag (Def mk) "trans_b") eqn:Etb.
    + (* G^T . A^T *) apply (TensorInference_matrix _ true true _ (env G) (env A) b b M N K M);
        first [exact Hfit | exact HfA | exact HfB | exact Hbc | exact Eta | exact Etb | exact HbA | exact HtaA | exact HtbA
              | exact HbB | exact HtaB | exact HtbB | reflexivity
              | exact HA | exact HB | exact HG | assumption].
    + (* A . G *) apply (TensorInference_matrix _ false false _ (env A) (env G) b b K M M N);
        first [exact Hfit | exact HfA | exact HfB | exact Hbc | exact Eta | exact Etb | exact HbA | exact HtaA | exact HtbA
              | exact HbB | exact HtaB | exact HtbB | reflexivity
              | exact HA | exact HB | exact HG | assumption].
    + (* G^T . A *) apply (TensorInference_matrix _ true false _ (env G) (env A) b b M N M K);
        first [exact Hfit | exact HfA | exact HfB | exact Hbc | exact Eta | exact Etb | exact HbA | exact HtaA | exact HtbA
              | exact HbB | exact HtaB | exact HtbB | reflexivity
              | exact HA | exact HB | exact HG | assumption].
    + (* A^T . G *) apply (TensorInference_matrix _ true false _ (env A) (env G) b b M K M N);
        first [exact Hfit | exact HfA | exact HfB | exact Hbc | exact Eta | exact Etb | exact HbA | exact HtaA | exact HtbA
              | exact HbB | exact HtaB | exact HtbB | reflexivity
              | exact HA | exact HB | exact HG | assumption].
Qed.

Lemma gradient_shapes_match_witness :
  (exists Y,
     TensorInferenceFunction (def_with [MakeArgument "trans_a" 1])
       [sample_env "A"; sample_env "B"] = Ok [Y] /\
     dims Y = dims (sample_env "Y_grad")) /\
  exists op1 op2,
    GetGradientDefs suffix_grad (maker_of (def_with [MakeArgument "trans_a" 1]))
      = Ok [op1; op2] /\
    (exists Y1, TensorInferenceFunction op1 (map sample_env (input op1)) = Ok [Y1] /\
                dims Y1 = dims (sample_env "A")) /\
    (exists Y2, TensorInferenceFunction op2 (map sample_env (input op2)) = Ok [Y2] /\
                dims Y2 = dims (sample_env "B")).
Proof.
  apply (gradient_shapes_match suffix_grad sample_env
           (maker_of (def_with [MakeArgument "trans_a" 1]))
           "A" "B" "Y_grad" [] [2] 3 4 5);
    reflexivity.
Defined.
